(** * Content source adapter: local and GitHub file acquisition

    A shallow embedding of [src/app/source.ts] and of the environment
    resolver [app/util/env.ts] it imports.

    - JavaScript strings are [string]s (sequences of 8-bit code units; the
      header values returned by [Headers.get] are byte strings).
    - JavaScript numbers that the code obtains from [parseInt] are integers
      or [NaN]; the sign of zero is not tracked ([-0 === 0] holds in
      JavaScript), and an integer beyond 2^53 stands for the double nearest
      to it (the code only ever compares a number with zero).
    - Plain objects used as dictionaries ([process.env], response headers,
      front-matter data) are [gmap string _].
    - Console output and outgoing HTTP requests are recorded, in program
      order, in a trace of [event]s; a computation is a trace together with
      either a value or a thrown error. *)

From Stdlib Require Import ZArith Ascii String.
From stdpp Require Import base option list gmap strings pretty.

Set Warnings "-register-all".
Local Open Scope Z_scope.

(** ** JavaScript values *)

Inductive number :=
  | NaN
  | Num (z : Z).

#[global] Instance number_eq_dec : EqDecision number.
Proof. solve_decision. Defined.

(** [a === b] on numbers: [NaN] is different from everything. *)
Definition strict_eq (a b : number) : bool :=
  match a, b with
  | Num x, Num y => x =? y
  | _, _ => false
  end.

Definition times (a : number) (k : Z) : number :=
  match a with
  | Num x => Num (x * k)
  | NaN => NaN
  end.

(** A [Date] is its time value in milliseconds; [NaN] is "Invalid Date". *)
Record Date := { getTime : number }.

#[global] Instance Date_eq_dec : EqDecision Date.
Proof. solve_decision. Defined.

(** [new Date(value)]: the time value is clipped to the representable range. *)
Definition newDate (value : number) : Date :=
  match value with
  | Num t => if Z.abs t <=? 8640000000000000 then {| getTime := Num t |}
             else {| getTime := NaN |}
  | NaN => {| getTime := NaN |}
  end.

(** Structured data as produced by the JSON and YAML parsers. *)
Inductive json :=
  | JNull
  | JBool (b : bool)
  | JNum (n : number)
  | JStr (s : string)
  | JArr (items : list json)
  | JObj (fields : list (string * json)).

(** Truthiness of an optional string ([undefined] and [''] are falsy). *)
Definition truthy (v : option string) : bool :=
  match v with
  | Some s => negb (String.eqb s "")
  | None => false
  end.

(** A template-literal hole [${v}] for an optional string. *)
Definition tpl (v : option string) : string :=
  match v with
  | Some s => s
  | None => "undefined"
  end.

(** ** [parseInt] (single-argument form)

    The result is the integer that the digits denote.  JavaScript returns
    the double nearest to that integer, which is the integer itself as
    long as its magnitude is at most 2^53; beyond that [Num z] stands for
    the double nearest to [z], and nothing below relies on more than its
    being different from zero. *)

Definition isWhiteSpace (c : ascii) : bool :=
  let n := Z.of_nat (nat_of_ascii c) in
  ((9 <=? n) && (n <=? 13)) || (n =? 32) || (n =? 160).

Fixpoint skipWhiteSpace (s : string) : string :=
  match s with
  | String c s' => if isWhiteSpace c then skipWhiteSpace s' else s
  | EmptyString => EmptyString
  end.

Definition digitValue (c : ascii) : option Z :=
  let n := Z.of_nat (nat_of_ascii c) in
  if (48 <=? n) && (n <=? 57) then Some (n - 48)
  else if (97 <=? n) && (n <=? 122) then Some (n - 87)
  else if (65 <=? n) && (n <=? 90) then Some (n - 55)
  else None.

(** The longest prefix of radix-[R] digits, as an integer; [acc] is [None]
    until a first digit has been read. *)
Fixpoint parseDigits (R : Z) (s : string) (acc : option Z) : option Z :=
  match s with
  | String c s' =>
      match digitValue c with
      | Some d =>
          if d <? R then parseDigits R s' (Some (default 0 acc * R + d))
          else acc
      | None => acc
      end
  | EmptyString => acc
  end.

Definition parseInt (input : string) : number :=
  let s := skipWhiteSpace input in
  let '(negative, s) :=
    match s with
    | String "-" r => (true, r)
    | String "+" r => (false, r)
    | _ => (false, s)
    end in
  let '(R, s) :=
    match s with
    | String "0" (String "x" r) => (16, r)
    | String "0" (String "X" r) => (16, r)
    | _ => (10, s)
    end in
  match parseDigits R s None with
  | Some m => Num (if negative : bool then - m else m)
  | None => NaN
  end.

(** ** GitHub API types *)

Inductive GitHubTreeItemType := blob | tree | commit.

#[global] Instance GitHubTreeItemType_eq_dec : EqDecision GitHubTreeItemType.
Proof. solve_decision. Defined.

Record GitHubTreeItem := {
  item_path : string;
  item_mode : string;
  item_type : GitHubTreeItemType;
  item_sha : string;
  item_size : option Z;
  item_url : string;
}.

#[global] Instance GitHubTreeItem_eq_dec : EqDecision GitHubTreeItem.
Proof. solve_decision. Defined.

Record GitHubTreeResponse := {
  tree_sha : string;
  tree_url : string;
  truncated : bool;
  tree_items : list GitHubTreeItem;
}.

Record GitHubRateLimitInfo := {
  limit : number;
  remaining : number;
  reset : Date;
  used : number;
}.

(** ** Errors

    [GitHubRateLimitError] extends [GitHubApiError], so it carries a status
    code too; its constructor fixes it to 403.  [HostError] stands for
    whatever the runtime throws ([fetch], [Response.json], [matter],
    [JSON.parse]). *)
Inductive error :=
  | Error (message : string)
  | GitHubApiError (message : string) (statusCode : Z)
  | GitHubRateLimitError (message : string) (statusCode : Z)
      (rateLimitInfo : GitHubRateLimitInfo)
  | HostError (name message : string).

Definition new_GitHubRateLimitError (message : string)
    (rateLimitInfo : GitHubRateLimitInfo) : error :=
  GitHubRateLimitError message 403 rateLimitInfo.

Inductive Result (A : Type) :=
  | Ok (a : A)
  | Throw (e : error).
Arguments Ok {A} a.
Arguments Throw {A} e.

(** ** HTTP *)

Definition HeadersInit := list (string * string).

(** Response headers, keyed by lower-case field name. *)
Definition headers_get (headers : gmap string string) (name : string)
    : option string :=
  headers !! name.

(** [text] is the outcome of [response.text()]; [json] the outcome of
    [response.json() as GitHubTreeResponse] (the type assertion is trusted,
    as it is by the compiler). *)
Record Response := {
  status : Z;
  statusText : string;
  response_headers : gmap string string;
  text : Result string;
  json_tree : Result GitHubTreeResponse;
}.

Definition ok (r : Response) : bool :=
  (200 <=? status r) && (status r <=? 299).

(** ** Traces and computations *)

Inductive event :=
  | Fetch (url : string) (init : HeadersInit)
  | ConsoleLog (msg : string)
  | ConsoleInfo (msg : string)
  | ConsoleWarn (msg : string)
  | ConsoleError (msg : string)
  | ConsoleErrorWith (msg : string) (e : error).

Definition Comp (A : Type) : Type := list event * Result A.

Definition trace {A} (m : Comp A) : list event := fst m.
Definition outcome {A} (m : Comp A) : Result A := snd m.

Definition ret {A} (a : A) : Comp A := ([], Ok a).
Definition throw {A} (e : error) : Comp A := ([], Throw e).
Definition emit (ev : event) : Comp unit := ([ev], Ok tt).
Definition lift {A} (r : Result A) : Comp A := ([], r).

Definition bind {A B} (m : Comp A) (k : A → Comp B) : Comp B :=
  match m with
  | (t, Ok a) => (t ++ trace (k a), outcome (k a))
  | (t, Throw e) => (t, Throw e)
  end.

(** [try { m } catch (e) { h e }] *)
Definition try_catch {A} (m : Comp A) (h : error → Comp A) : Comp A :=
  match m with
  | (t, Throw e) => (t ++ trace (h e), outcome (h e))
  | (t, Ok a) => (t, Ok a)
  end.

Notation "'let*' x := m 'in' k" := (bind m (fun x => k))
  (at level 10, x name, m at level 100, k at level 200).
Notation "m ;; k" := (bind m (fun _ => k))
  (at level 100, k at level 200, right associativity).

(** ** Virtual files *)

(** What [matter(content)] returns: its [data] and [content] fields. *)
Record GrayMatterFile := {
  matter_data : gmap string json;
  matter_content : string;
}.

(** [{ type: 'page', path, data }] and [{ type: 'meta', path, data }]. *)
Inductive VirtualFile :=
  | Page (path : string) (page_data : gmap string json)
  | Meta (path : string) (meta_data : json).

(** ** The resolved environment ([env] of [util/env]) *)

Inductive Mode := development | production.

#[global] Instance Mode_eq_dec : EqDecision Mode.
Proof. solve_decision. Defined.

Definition Mode_to_string (m : Mode) : string :=
  match m with
  | development => "development"
  | production => "production"
  end.

Record Env := {
  NODE_ENV : Mode;
  GITHUB_OWNER : option string;
  GITHUB_REPO : option string;
  GITHUB_CONTENT_PATH : string;
  GITHUB_CONTENT_BRANCH : string;
  GITHUB_TOKEN : option string;
}.

(** ** The host: network, bundler, Node and library functions

    [fetch n url init] is what the [n]-th request of a run resolves to
    ([Throw] when the promise rejects): request 0 is the tree listing and
    request [i + 1] the raw file of the [i]-th selected tree entry.
    [glob] is the table that [import.meta.glob('/content/docs/**/*')]
    expands to, in [Object.entries] order. *)
Class Runtime := {
  fetch : nat → string → HeadersInit → Result Response;
  matter : string → Result GrayMatterFile;
  JSON_parse : string → Result json;
  extname : string → string;
  relative : string → string → string;
  join : string → string → string;
  cwd : string;
  glob : list (string * string);
  toLocaleString : Date → string;
  (** [((used / limit) * 100).toFixed(1)] *)
  usagePercentage : number → number → string;
  (** [${n}] for a number *)
  showNumber : number → string;
}.

Definition nl : string := String (ascii_of_nat 10) EmptyString.

(** [l.flatMap(f)] for a callback that may throw. *)
Fixpoint flatMapM {A B} (f : A → Comp (list B)) (l : list A)
    : Comp (list B) :=
  match l with
  | [] => ret []
  | x :: l' =>
      let* ys := f x in
      let* rest := flatMapM f l' in
      ret (ys ++ rest)
  end.

(** ** Promises

    A started [async] call is its remaining computation; awaiting a
    promise that rejected throws. *)
Inductive PromiseSettledResult (A : Type) :=
  | fulfilled (value : A)
  | rejected (reason : error).
Arguments fulfilled {A} value.
Arguments rejected {A} reason.

Definition await {A} (p : Result A) : Comp A := lift p.

Definition settle {A} (p : Comp A) : Comp (PromiseSettledResult A) :=
  (trace p,
   Ok match outcome p with
      | Ok a => fulfilled a
      | Throw e => rejected e
      end).

(** [Promise.allSettled]: never rejects; results are in input order.  The
    continuations of the pending calls are run in input order, which is one
    of the schedules the event loop may choose. *)
Fixpoint allSettled {A} (ps : list (Comp A))
    : Comp (list (PromiseSettledResult A)) :=
  match ps with
  | [] => ret []
  | p :: ps' =>
      let* r := settle p in
      let* rs := allSettled ps' in
      ret (r :: rs)
  end.

Definition is_fulfilled {A} (r : PromiseSettledResult A) : bool :=
  match r with fulfilled _ => true | rejected _ => false end.

(** [results.filter(r => r.status === 'fulfilled').map(r => r.value)] *)
Definition fulfilled_values {A} (rs : list (PromiseSettledResult A))
    : list A :=
  flat_map (λ r, match r with fulfilled v => [v] | rejected _ => [] end)
    (List.filter is_fulfilled rs).

(** [values.filter(Boolean)]: objects are truthy, [null] is not. *)
Definition filter_Boolean {A} (vs : list (option A)) : list A :=
  omap id vs.

(** ** [src/app/source.ts] *)

Section Source.
Context `{RT : Runtime}.
Variable env : Env.

(** The callback of [files.flatMap] in [getLocalFiles]. *)
Definition localFile (entry : string * string) : Comp (list VirtualFile) :=
  let '(file, content) := entry in
  let ext := extname file in
  let virtualPath := relative "content/docs" (join cwd file) in
  if String.eqb ext ".mdx" || String.eqb ext ".md" then
    let* parsed := lift (matter content) in
    ret [Page virtualPath
           (<["content" := JStr parsed.(matter_content)]>
                      parsed.(matter_data))]
  else if String.eqb ext ".json" then
    let* parsed := lift (JSON_parse content) in
    ret [Meta virtualPath parsed]
  else ret [].

Definition getLocalFiles : Comp (list VirtualFile) :=
  let files := glob in
  flatMapM localFile files.

Definition parseRateLimitHeaders (headers : gmap string string)
    : option GitHubRateLimitInfo :=
  let limit := headers_get headers "x-ratelimit-limit" in
  let remaining := headers_get headers "x-ratelimit-remaining" in
  let reset := headers_get headers "x-ratelimit-reset" in
  let used := headers_get headers "x-ratelimit-used" in
  if negb (truthy limit) || negb (truthy remaining)
     || negb (truthy reset) || negb (truthy used)
  then None
  else
    Some {| limit := parseInt (default "" limit);
            remaining := parseInt (default "" remaining);
            reset := newDate (times (parseInt (default "" reset)) 1000);
            used := parseInt (default "" used) |}.

Definition logRateLimitInfo (rateLimitInfo : option GitHubRateLimitInfo)
    : Comp unit :=
  match rateLimitInfo with
  | None => emit (ConsoleLog "No rate limit information available")
  | Some rateLimitInfo =>
      let resetTime := toLocaleString rateLimitInfo.(reset) in
      let usagePercentage :=
        usagePercentage rateLimitInfo.(used) rateLimitInfo.(limit) in
      emit (ConsoleLog
        ("GitHub API Rate Limit Info:" +:+ nl +:+
         "  - Used: " +:+ showNumber rateLimitInfo.(used) +:+ "/" +:+
           showNumber rateLimitInfo.(limit) +:+
           " (" +:+ usagePercentage +:+ "%)" +:+ nl +:+
         "  - Remaining: " +:+ showNumber rateLimitInfo.(remaining) +:+ nl +:+
         "  - Resets at: " +:+ resetTime +:+ nl +:+
         "  "))
  end.

Definition getGitHubHeaders : HeadersInit :=
  let headers := [("Accept", "application/vnd.github.v3+json")] in
  if truthy env.(GITHUB_TOKEN) then
    headers ++ [("Authorization", "token " +:+ tpl env.(GITHUB_TOKEN))]
  else headers.

(** [fetch(url, { headers })]: the request goes out now, the promise is
    awaited later. *)
Definition request (n : nat) (url : string) (init : HeadersInit)
    : Comp (Result Response) :=
  emit (Fetch url init) ;; ret (fetch n url init).

Definition apiUrl : string :=
  "https://api.github.com/repos/" +:+ tpl env.(GITHUB_OWNER) +:+ "/" +:+
  tpl env.(GITHUB_REPO) +:+ "/git/trees/" +:+ env.(GITHUB_CONTENT_BRANCH) +:+
  "?recursive=1".

Definition fileUrl (file : GitHubTreeItem) : string :=
  "https://raw.githubusercontent.com/" +:+ tpl env.(GITHUB_OWNER) +:+ "/" +:+
  tpl env.(GITHUB_REPO) +:+ "/" +:+ env.(GITHUB_CONTENT_BRANCH) +:+ "/" +:+
  file.(item_path).

(** The predicate of [data.tree.filter]. *)
Definition isContentFile (item : GitHubTreeItem) : bool :=
  bool_decide (item.(item_type) = blob)
  && String.prefix env.(GITHUB_CONTENT_PATH) item.(item_path).

(** The [async] callback of [contentFiles.map], up to its first [await]:
    it runs while the array is mapped and sends the request of its file. *)
Fixpoint startFetches (n : nat) (init : HeadersInit)
    (files : list GitHubTreeItem)
    : Comp (list (GitHubTreeItem * Result Response)) :=
  match files with
  | [] => ret []
  | file :: files' =>
      let* pending := request n (fileUrl file) init in
      let* rest := startFetches (S n) init files' in
      ret ((file, pending) :: rest)
  end.

(** The rest of that callback, from [await fetch(...)] on. *)
Definition fileCallback (started : GitHubTreeItem * Result Response)
    : Comp (option VirtualFile) :=
  let '(file, pending) := started in
  let* fileResponse := await pending in
  if negb (ok fileResponse) then
    emit (ConsoleError ("Failed to fetch file: " +:+ file.(item_path))) ;;
    ret None
  else
    let* content := await fileResponse.(text) in
    let ext := extname file.(item_path) in
    let virtualPath := relative env.(GITHUB_CONTENT_PATH) file.(item_path) in
    if String.eqb ext ".mdx" || String.eqb ext ".md" then
      let* parsed := lift (matter content) in
      ret (Some (Page virtualPath
                   (<["content" := JStr parsed.(matter_content)]>
                      parsed.(matter_data))))
    else if String.eqb ext ".json" then
      let* parsed := lift (JSON_parse content) in
      ret (Some (Meta virtualPath parsed))
    else ret None.

(** The [catch] block of [getGitHubFiles]. *)
Definition reportAndRethrow (e : error) : Comp (list VirtualFile) :=
  match e with
  | GitHubRateLimitError _ _ rateLimitInfo =>
      emit (ConsoleError ("Rate limit exceeded. Reset at " +:+
                          toLocaleString rateLimitInfo.(reset)))
  | GitHubApiError message statusCode =>
      emit (ConsoleError ("GitHub API error (" +:+
                          showNumber (Num statusCode) +:+ "): " +:+ message))
  | _ => emit (ConsoleErrorWith "Error fetching files from GitHub:" e)
  end ;;
  throw e.

(** The [if (!response.ok)] block. *)
Definition rejectResponse (response : Response)
    (rateLimitInfo : option GitHubRateLimitInfo) : Comp unit :=
  match rateLimitInfo with
  | Some info =>
      if strict_eq info.(remaining) (Num 0) then
        throw (new_GitHubRateLimitError
                 ("GitHub API rate limit exceeded. Rate limit will reset at "
                  +:+ toLocaleString info.(reset))
                 info)
      else ret tt
  | None => ret tt
  end ;;
  throw (GitHubApiError ("GitHub API error: " +:+ response.(statusText))
           response.(status)).

(** The body of the [try] block, from the tree response on. *)
Definition processTree (init : HeadersInit) (response : Response)
    : Comp (list VirtualFile) :=
  let* data := await response.(json_tree) in
  let contentFiles := List.filter isContentFile data.(tree_items) in
  let* started := startFetches 1 init contentFiles in
  let* virtualFilesResults := allSettled (map fileCallback started) in
  let virtualFiles := filter_Boolean (fulfilled_values virtualFilesResults) in
  ret virtualFiles.

Definition getGitHubFiles : Comp (list VirtualFile) :=
  if negb (truthy env.(GITHUB_OWNER)) || negb (truthy env.(GITHUB_REPO)) then
    throw (Error "GitHub configuration is missing")
  else
    try_catch
      (let headers := getGitHubHeaders in
       let* pending := request 0 apiUrl headers in
       let* response := await pending in
       let rateLimitInfo := parseRateLimitHeaders response.(response_headers) in
       logRateLimitInfo rateLimitInfo ;;
       (if negb (ok response) then rejectResponse response rateLimitInfo
        else ret tt) ;;
       processTree headers response)
      reportAndRethrow.

Definition getFiles : Comp (list VirtualFile) :=
  let* files :=
    match env.(NODE_ENV) with
    | development => getLocalFiles
    | production => getGitHubFiles
    end in
  emit (ConsoleInfo (Mode_to_string env.(NODE_ENV) +:+ " Loaded " +:+
                     showNumber (Num (Z.of_nat (length files))) +:+
                     " files")) ;;
  ret files.

End Source.

(** ** [app/util/env.ts]

    [process.env] is a dictionary from variable names to strings.  The
    schema is a [z.object] refined by [superRefine]; [safeParse] collects
    issues instead of throwing. *)

Record ZodIssue := {
  issue_path : list string;
  issue_message : string;
}.

Inductive SafeParseReturn :=
  | success (parsed : Env)
  | failure (errors : list ZodIssue).

(** [z.enum(['development', 'production'])] on the value of [NODE_ENV]:
    an absent value is reported as "Required", any other string as an
    invalid enum value. *)
Definition parseNodeEnv (v : option string) : ZodIssue + Mode :=
  match v with
  | None => inl {| issue_path := ["NODE_ENV"]; issue_message := "Required" |}
  | Some s =>
      if String.eqb s "development" then inr development
      else if String.eqb s "production" then inr production
      else inl {| issue_path := ["NODE_ENV"];
                  issue_message :=
                    "Invalid enum value. Expected 'development' | 'production', received '"
                    +:+ s +:+ "'" |}
  end.

(** The object schema proper: every [GITHUB_*] field is an optional string
    (two of them with a default), so only [NODE_ENV] can be rejected. *)
Definition parseObject (penv : gmap string string) : ZodIssue + Env :=
  match parseNodeEnv (penv !! "NODE_ENV") with
  | inl issue => inl issue
  | inr mode =>
      inr {| NODE_ENV := mode;
             GITHUB_OWNER := penv !! "GITHUB_OWNER";
             GITHUB_REPO := penv !! "GITHUB_REPO";
             GITHUB_CONTENT_PATH :=
               default "content/docs" (penv !! "GITHUB_CONTENT_PATH");
             GITHUB_CONTENT_BRANCH :=
               default "main" (penv !! "GITHUB_CONTENT_BRANCH");
             GITHUB_TOKEN := penv !! "GITHUB_TOKEN" |}
  end.

Definition requiredIssue (name : string) : ZodIssue :=
  {| issue_path := [name];
     issue_message := name +:+ " is required in production mode." |}.

(** The callback given to [superRefine]: the issues it adds through
    [ctx.addIssue], in order, and what it writes to the console. *)
Definition superRefine (data : Env) : list event * list ZodIssue :=
  match data.(NODE_ENV) with
  | production =>
      let owner :=
        if negb (truthy data.(GITHUB_OWNER))
        then [requiredIssue "GITHUB_OWNER"] else [] in
      let repo :=
        if negb (truthy data.(GITHUB_REPO))
        then [requiredIssue "GITHUB_REPO"] else [] in
      let contentPath :=
        if negb (truthy (Some data.(GITHUB_CONTENT_PATH)))
        then [requiredIssue "GITHUB_CONTENT_PATH"] else [] in
      let warning :=
        if negb (truthy data.(GITHUB_TOKEN))
        then [ConsoleWarn
                "GITHUB_TOKEN is not set. You may encounter rate limiting issues."]
        else [] in
      (warning, owner ++ repo ++ contentPath)
  | development => ([], [])
  end.

(** [envSchema.safeParse(process.env)]: the refinement only runs on an
    object that parsed. *)
Definition envSchema_safeParse (penv : gmap string string)
    : list event * SafeParseReturn :=
  match parseObject penv with
  | inl issue => ([], failure [issue])
  | inr data =>
      let '(out, issues) := superRefine data in
      (out, match issues with
            | [] => success data
            | _ :: _ => failure issues
            end)
  end.

Definition issueLine (e : ZodIssue) : string :=
  String.concat "." e.(issue_path) +:+ ": " +:+ e.(issue_message).

Definition humanReadableZodError (errors : list ZodIssue) : string :=
  String.concat nl (map issueLine errors).

Definition validateEnv (penv : gmap string string) : Comp Env :=
  let* env := (fst (envSchema_safeParse penv),
               Ok (snd (envSchema_safeParse penv))) in
  match env with
  | failure errors =>
      let message := humanReadableZodError errors in
      emit (ConsoleError message) ;;
      throw (Error message)
  | success data => ret data
  end.

(** *** The configuration constraints, as the specification words them *)

Inductive Constraint :=
  | ModeIsValid
  | OwnerRequired
  | RepositoryRequired
  | ContentPathRequired.

Definition variableOf (c : Constraint) : string :=
  match c with
  | ModeIsValid => "NODE_ENV"
  | OwnerRequired => "GITHUB_OWNER"
  | RepositoryRequired => "GITHUB_REPO"
  | ContentPathRequired => "GITHUB_CONTENT_PATH"
  end.

Definition inProduction (penv : gmap string string) : Prop :=
  penv !! "NODE_ENV" = Some "production".

(** A field is missing when it is absent or empty. *)
Definition missing (v : option string) : Prop := v = None ∨ v = Some "".

(** The mode must be one of the two literals; in production mode the
    owner, the repository name and the content path (which defaults to
    ["content/docs"] when the variable is absent) must be non-empty. *)
Definition violates (penv : gmap string string) (c : Constraint) : Prop :=
  match c with
  | ModeIsValid =>
      penv !! "NODE_ENV" ≠ Some "development"
      ∧ penv !! "NODE_ENV" ≠ Some "production"
  | OwnerRequired => inProduction penv ∧ missing (penv !! "GITHUB_OWNER")
  | RepositoryRequired => inProduction penv ∧ missing (penv !! "GITHUB_REPO")
  | ContentPathRequired =>
      inProduction penv
      ∧ default "content/docs" (penv !! "GITHUB_CONTENT_PATH") = ""
  end.

(** A message lists a constraint when one of its lines starts with the
    name of the constraint's variable. *)
Definition listsConstraint (message : string) (c : Constraint) : Prop :=
  ∃ lines detail,
    message = String.concat nl lines
    ∧ In (variableOf c +:+ ": " +:+ detail) lines.

(** ** Auxiliary notions used to state the properties *)

Section Observations.
Context `{RT : Runtime}.
Variable env : Env.

(** The [try] block of [getGitHubFiles] from the listing response on,
    with its [catch]. *)
Definition afterResponse (response : Response) : Comp (list VirtualFile) :=
  try_catch
    (let rateLimitInfo := parseRateLimitHeaders response.(response_headers) in
     logRateLimitInfo rateLimitInfo ;;
     (if negb (ok response) then rejectResponse response rateLimitInfo
      else ret tt) ;;
     processTree env (getGitHubHeaders env) response)
    reportAndRethrow.

(** The entries selected from a listing, and each with what its request
    (numbered from [n]) resolves to. *)
Definition contentFilesOf (data : GitHubTreeResponse) : list GitHubTreeItem :=
  List.filter (isContentFile env) data.(tree_items).

Fixpoint pendingFetches (n : nat) (init : HeadersInit)
    (files : list GitHubTreeItem) : list (GitHubTreeItem * Result Response) :=
  match files with
  | [] => []
  | file :: files' =>
      (file, fetch n (fileUrl env file) init)
        :: pendingFetches (S n) init files'
  end.

Definition attempts (data : GitHubTreeResponse)
    : list (GitHubTreeItem * Result Response) :=
  pendingFetches 1 (getGitHubHeaders env) (contentFilesOf data).

(** The virtual file an attempt contributes to the result, if any. *)
Definition fileValue (started : GitHubTreeItem * Result Response)
    : option VirtualFile :=
  match outcome (fileCallback env started) with
  | Ok (Some file) => Some file
  | _ => None
  end.

(** An attempt failed when its request was answered with a non-success
    status. *)
Definition httpFailed (started : GitHubTreeItem * Result Response) : bool :=
  match started.2 with
  | Ok fileResponse => negb (ok fileResponse)
  | Throw _ => false
  end.

(** An attempt is skipped when it did not fail in that sense and still
    yields no virtual file: the request was rejected, the body could not
    be read, the extension is not one of the three known ones, or the
    parser threw. *)
Definition skipped (started : GitHubTreeItem * Result Response) : bool :=
  match started.2 with
  | Throw _ => true
  | Ok fileResponse =>
      ok fileResponse &&
      match fileResponse.(text) with
      | Throw _ => true
      | Ok content =>
          let ext := extname started.1.(item_path) in
          if String.eqb ext ".mdx" || String.eqb ext ".md" then
            match matter content with Ok _ => false | Throw _ => true end
          else if String.eqb ext ".json" then
            match JSON_parse content with Ok _ => false | Throw _ => true end
          else true
      end
  end.

End Observations.

(** The URLs requested in a trace, in order. *)
Definition requestedUrls (t : list event) : list string :=
  flat_map (λ ev, match ev with Fetch url _ => [url] | _ => [] end) t.

Definition rateLimitHeaderNames : list string :=
  ["x-ratelimit-limit"; "x-ratelimit-remaining";
   "x-ratelimit-reset"; "x-ratelimit-used"].

Definition settled {A} (p : Comp A) : PromiseSettledResult A :=
  match outcome p with
  | Ok a => fulfilled a
  | Throw e => rejected e
  end.

(** The same runtime with another network. *)
Definition withFetch (RT : Runtime)
    (net : nat → string → HeadersInit → Result Response) : Runtime :=
  {| fetch := net;
     matter := @matter RT;
     JSON_parse := @JSON_parse RT;
     extname := @extname RT;
     relative := @relative RT;
     join := @join RT;
     cwd := @cwd RT;
     glob := @glob RT;
     toLocaleString := @toLocaleString RT;
     usagePercentage := @usagePercentage RT;
     showNumber := @showNumber RT |}.

(** ** A concrete host, for running the definitions on examples *)

Module Sample.

Fixpoint hasSlash (s : string) : bool :=
  match s with
  | String c r => Ascii.eqb c "/" || hasSlash r
  | EmptyString => false
  end.

(** The suffix from the last dot of the last path segment (a simplified
    [path.extname], adequate for the paths used here). *)
Fixpoint extname (p : string) : string :=
  match p with
  | String c r =>
      let e := extname r in
      if negb (String.eqb e "") then e
      else if Ascii.eqb c "." && negb (hasSlash r) then p
      else ""
  | EmptyString => ""
  end.

Fixpoint stripPrefix (p s : string) : option string :=
  match p, s with
  | EmptyString, _ => Some s
  | String a p', String b s' =>
      if Ascii.eqb a b then stripPrefix p' s' else None
  | String _ _, EmptyString => None
  end.

Definition cwd : string := "/srv/site".
Definition join (a b : string) : string := a +:+ b.

Definition resolve (p : string) : string :=
  match p with
  | String "/" _ => p
  | _ => cwd +:+ "/" +:+ p
  end.

Definition relative (from to : string) : string :=
  default to (stripPrefix (resolve from +:+ "/") (resolve to)).

Definition titled : string :=
  "---" +:+ nl +:+ "title: A" +:+ nl +:+ "---" +:+ nl +:+ "hello".

Definition shadowing : string :=
  "---" +:+ nl +:+ "content: from the header" +:+ nl +:+ "---" +:+ nl +:+
  "from the body".

Definition matter (input : string) : Result GrayMatterFile :=
  if String.eqb input titled then
    Ok {| matter_data := {[ "title" := JStr "A" ]};
          matter_content := "hello" |}
  else if String.eqb input shadowing then
    Ok {| matter_data := {[ "content" := JStr "from the header" ]};
          matter_content := "from the body" |}
  else if String.prefix "---" input then
    Throw (HostError "YAMLException" "can not read the front matter")
  else Ok {| matter_data := ∅; matter_content := input |}.

Definition JSON_parse (input : string) : Result json :=
  if String.eqb input "[]" then Ok (JArr [])
  else if String.eqb input "null" then Ok JNull
  else if String.eqb input "{}" then Ok (JObj [])
  else Throw (HostError "SyntaxError" "Unexpected token").

Definition showNumber (n : number) : string :=
  match n with
  | Num z => pretty z
  | NaN => "NaN"
  end.

Definition toLocaleString (d : Date) : string :=
  match d.(getTime) with
  | Num t => "t=" +:+ pretty t
  | NaN => "Invalid Date"
  end.

Definition usagePercentage (used limit : number) : string :=
  match used, limit with
  | Num u, Num l => if l =? 0 then "NaN" else pretty (u * 100 / l) +:+ ".0"
  | _, _ => "NaN"
  end.

Definition glob : list (string * string) :=
  [("/content/docs/index.md", titled);
   ("/content/docs/guide/shadow.mdx", shadowing);
   ("/content/docs/meta.json", "[]");
   ("/content/docs/logo.png", "PNG")].

Definition runtime (net : nat → string → HeadersInit → Result Response)
    : Runtime :=
  Build_Runtime net matter JSON_parse extname relative join cwd glob
    toLocaleString usagePercentage showNumber.

Definition prodEnv : Env :=
  {| NODE_ENV := production;
     GITHUB_OWNER := Some "acme";
     GITHUB_REPO := Some "handbook";
     GITHUB_CONTENT_PATH := "content/docs";
     GITHUB_CONTENT_BRANCH := "main";
     GITHUB_TOKEN := None |}.

Definition devEnv : Env :=
  {| NODE_ENV := development;
     GITHUB_OWNER := None;
     GITHUB_REPO := None;
     GITHUB_CONTENT_PATH := "content/docs";
     GITHUB_CONTENT_BRANCH := "main";
     GITHUB_TOKEN := None |}.

Definition noRepoEnv : Env :=
  {| NODE_ENV := production;
     GITHUB_OWNER := Some "acme";
     GITHUB_REPO := None;
     GITHUB_CONTENT_PATH := "content/docs";
     GITHUB_CONTENT_BRANCH := "main";
     GITHUB_TOKEN := None |}.

Definition noBody : Result string :=
  Throw (HostError "TypeError" "body unusable").
Definition noTree : Result GitHubTreeResponse :=
  Throw (HostError "SyntaxError" "Unexpected end of JSON input").

Definition quota (remaining used : string) : gmap string string :=
  {[ "x-ratelimit-limit" := "60";
     "x-ratelimit-remaining" := remaining;
     "x-ratelimit-reset" := "1893456000";
     "x-ratelimit-used" := used ]}.

Definition forbidden (hdrs : gmap string string) : Response :=
  {| status := 403; statusText := "Forbidden"; response_headers := hdrs;
     text := Ok ""; json_tree := noTree |}.

(** A network whose every answer is the given one. *)
Definition always (r : Response) (n : nat) (url : string) (init : HeadersInit)
    : Result Response :=
  Ok r.

Definition entry (p : string) (t : GitHubTreeItemType) : GitHubTreeItem :=
  {| item_path := p; item_mode := "100644"; item_type := t;
     item_sha := "0"; item_size := None; item_url := "" |}.

Definition listing : GitHubTreeResponse :=
  {| tree_sha := "0"; tree_url := ""; truncated := false;
     tree_items :=
       [entry "README.md" blob;
        entry "content/docs" tree;
        entry "content/docs/index.md" blob;
        entry "content/docs/logo.png" blob;
        entry "content/docs/gone.md" blob;
        entry "content/docs/meta.json" blob;
        entry "content/docs/guide" tree;
        entry "content/docs/guide/shadow.mdx" blob;
        entry "src/main.ts" blob] |}.

Definition file (body : string) : Response :=
  {| status := 200; statusText := "OK"; response_headers := ∅;
     text := Ok body; json_tree := noTree |}.

Definition notFound : Response :=
  {| status := 404; statusText := "Not Found"; response_headers := ∅;
     text := Ok "404: Not Found"; json_tree := noTree |}.

Definition raw : string :=
  "https://raw.githubusercontent.com/acme/handbook/main/content/docs/".

(** The listing (served without one of the quota fields) and the raw
    files of the repository; [gone.md] is listed but is not served. *)
Definition repository (n : nat) (url : string) (init : HeadersInit)
    : Result Response :=
  match n with
  | O =>
      Ok {| status := 200; statusText := "OK";
            response_headers :=
              delete "x-ratelimit-used" (quota "59" "1");
            text := Ok ""; json_tree := Ok listing |}
  | S _ =>
      if String.eqb url (raw +:+ "index.md") then Ok (file titled)
      else if String.eqb url (raw +:+ "logo.png") then Ok (file "PNG")
      else if String.eqb url (raw +:+ "meta.json") then Ok (file "[]")
      else if String.eqb url (raw +:+ "guide/shadow.mdx")
      then Ok (file shadowing)
      else Ok notFound
  end.

End Sample.

(** ** Further observations on runs *)

Definition vf_path (f : VirtualFile) : string :=
  match f with
  | Page path _ => path
  | Meta path _ => path
  end.

Definition isPage (f : VirtualFile) : bool :=
  match f with
  | Page _ _ => true
  | Meta _ _ => false
  end.

(** The extensions that the two callbacks turn into a virtual file. *)
Definition isMarkdown (ext : string) : bool :=
  String.eqb ext ".mdx" || String.eqb ext ".md".

Definition recognised (ext : string) : bool :=
  isMarkdown ext || String.eqb ext ".json".

(** Lines written with [console.error]. *)
Definition isErrorLine (ev : event) : bool :=
  match ev with
  | ConsoleError _ | ConsoleErrorWith _ _ => true
  | _ => false
  end.

Definition isRequest (ev : event) : bool :=
  match ev with
  | Fetch _ _ => true
  | _ => false
  end.

(** The [init] argument of every request of a trace. *)
Definition requestInits (t : list event) : list HeadersInit :=
  flat_map (λ ev, match ev with Fetch _ init => [init] | _ => [] end) t.

Definition tokenWarning : event :=
  ConsoleWarn
    "GITHUB_TOKEN is not set. You may encounter rate limiting issues.".

Section Reports.
Context `{RT : Runtime}.

(** The line that the [catch] block of [getGitHubFiles] writes for an
    error, by the class of the error. *)
Definition reportOf (e : error) : event :=
  match e with
  | GitHubRateLimitError _ _ rateLimitInfo =>
      ConsoleError ("Rate limit exceeded. Reset at " +:+
                    toLocaleString rateLimitInfo.(reset))
  | GitHubApiError message statusCode =>
      ConsoleError ("GitHub API error (" +:+
                    showNumber (Num statusCode) +:+ "): " +:+ message)
  | _ => ConsoleErrorWith "Error fetching files from GitHub:" e
  end.

(** The error that the [if (!response.ok)] block throws. *)
Definition listingError (response : Response) : error :=
  match parseRateLimitHeaders response.(response_headers) with
  | Some info =>
      if strict_eq info.(remaining) (Num 0) then
        new_GitHubRateLimitError
          ("GitHub API rate limit exceeded. Rate limit will reset at "
           +:+ toLocaleString info.(reset)) info
      else
        GitHubApiError ("GitHub API error: " +:+ response.(statusText))
          response.(status)
  | None =>
      GitHubApiError ("GitHub API error: " +:+ response.(statusText))
        response.(status)
  end.

(** The virtual path that the local callback gives an entry. *)
Definition localPath (entry : string * string) : string :=
  relative "content/docs" (join cwd entry.1).

End Reports.

(** What happens to the listing request of a configured run: it is
    rejected, or answered with a status that is not a success, or answered
    with a body that does not decode, or read. *)
Inductive RunKind :=
  | RequestRejected (e : error)
  | ListingRefused (response : Response)
  | ListingUndecodable (response : Response) (e : error)
  | ListingRead (response : Response) (data : GitHubTreeResponse).

Definition runKind `{RT : Runtime} (env : Env) : RunKind :=
  match fetch 0 (apiUrl env) (getGitHubHeaders env) with
  | Throw e => RequestRejected e
  | Ok response =>
      if ok response then
        match response.(json_tree) with
        | Ok data => ListingRead response data
        | Throw e => ListingUndecodable response e
        end
      else ListingRefused response
  end.

(** Two virtual files of the same kind with the same data (their paths
    may differ). *)
Definition sameData (a b : VirtualFile) : Prop :=
  match a, b with
  | Page _ d, Page _ d' => d = d'
  | Meta _ j, Meta _ j' => j = j'
  | _, _ => False
  end.

(** The configuration that the object schema builds from an environment
    whose mode is [mode]: the variables as they are, the content path and
    the branch with their defaults. *)
Definition resolved (penv : gmap string string) (mode : Mode) : Env :=
  {| NODE_ENV := mode;
     GITHUB_OWNER := penv !! "GITHUB_OWNER";
     GITHUB_REPO := penv !! "GITHUB_REPO";
     GITHUB_CONTENT_PATH :=
       default "content/docs" (penv !! "GITHUB_CONTENT_PATH");
     GITHUB_CONTENT_BRANCH := default "main" (penv !! "GITHUB_CONTENT_BRANCH");
     GITHUB_TOKEN := penv !! "GITHUB_TOKEN" |}.

(** The constraints in the order in which the resolver checks them. *)
Definition allConstraints : list Constraint :=
  [ModeIsValid; OwnerRequired; RepositoryRequired; ContentPathRequired].

(** The entry that the error message has for a violated constraint: the
    variable, a colon, and the text of the issue.  The entry of the mode
    quotes the received value as it is. *)
Definition entryOf (penv : gmap string string) (c : Constraint) : string :=
  match c with
  | ModeIsValid =>
      "NODE_ENV: " +:+
      match penv !! "NODE_ENV" with
      | None => "Required"
      | Some received =>
          "Invalid enum value. Expected 'development' | 'production', received '"
          +:+ received +:+ "'"
      end
  | OwnerRequired =>
      "GITHUB_OWNER: GITHUB_OWNER is required in production mode."
  | RepositoryRequired =>
      "GITHUB_REPO: GITHUB_REPO is required in production mode."
  | ContentPathRequired =>
      "GITHUB_CONTENT_PATH: GITHUB_CONTENT_PATH is required in production mode."
  end.

#[global] Instance missing_dec (v : option string) : Decision (missing v).
Proof. unfold missing. apply _. Defined.

#[global] Instance violates_dec (penv : gmap string string) (c : Constraint) :
  Decision (violates penv c).
Proof. destruct c; unfold violates, inProduction; apply _. Defined.

(** ** The mode-only resolver

    The second environment module of the repository: its schema has the
    single field [NODE_ENV], so every other variable is stripped. *)
Module ModeOnly.

Record Data := { data_NODE_ENV : Mode }.

Inductive SafeParseReturn :=
  | success (parsed : Data)
  | failure (errors : list ZodIssue).

Definition envSchema_safeParse (penv : gmap string string)
    : SafeParseReturn :=
  match parseNodeEnv (penv !! "NODE_ENV") with
  | inl issue => failure [issue]
  | inr mode => success {| data_NODE_ENV := mode |}
  end.

Definition validateEnv (penv : gmap string string) : Comp Data :=
  let env := envSchema_safeParse penv in
  match env with
  | failure errors =>
      let message := humanReadableZodError errors in
      emit (ConsoleError message) ;;
      throw (Error message)
  | success parsed => ret parsed
  end.

End ModeOnly.

(** ** More sample networks *)

Module Scenario.

Definition unreachable : error :=
  HostError "TypeError" "fetch failed".

(** No request is ever answered. *)
Definition offline (n : nat) (url : string) (init : HeadersInit)
    : Result Response :=
  Throw unreachable.

(** The listing is answered with a body that is not JSON. *)
Definition garbled : Response :=
  {| status := 200; statusText := "OK"; response_headers := ∅;
     text := Ok "<html>"; json_tree := Sample.noTree |}.

(** A secondary rate limit: status 429 with an exhausted quota. *)
Definition tooManyRequests : Response :=
  {| status := 429; statusText := "Too Many Requests";
     response_headers := Sample.quota "0" "60";
     text := Ok ""; json_tree := Sample.noTree |}.

Definition tokenEnv : Env :=
  {| NODE_ENV := production;
     GITHUB_OWNER := Some "acme";
     GITHUB_REPO := Some "handbook";
     GITHUB_CONTENT_PATH := "content/docs";
     GITHUB_CONTENT_BRANCH := "main";
     GITHUB_TOKEN := Some "s3cret" |}.

(** A local content directory with a broken metadata file. *)
Definition brokenGlob : list (string * string) :=
  [("/content/docs/index.md", Sample.titled);
   ("/content/docs/meta.json", "{oops");
   ("/content/docs/guide/shadow.mdx", Sample.shadowing)].

Definition brokenRuntime : Runtime :=
  Build_Runtime Sample.repository Sample.matter Sample.JSON_parse
    Sample.extname Sample.relative Sample.join Sample.cwd brokenGlob
    Sample.toLocaleString Sample.usagePercentage Sample.showNumber.

(** A listing with a sibling of the content directory whose name starts
    with the same characters. *)
Definition siblingListing : GitHubTreeResponse :=
  {| tree_sha := "0"; tree_url := ""; truncated := false;
     tree_items :=
       [Sample.entry "content/docs/index.md" blob;
        Sample.entry "content/docs-old/index.md" blob;
        Sample.entry "content/other.md" blob] |}.

Definition siblingNetwork (n : nat) (url : string) (init : HeadersInit)
    : Result Response :=
  match n with
  | O => Ok {| status := 200; statusText := "OK"; response_headers := ∅;
               text := Ok ""; json_tree := Ok siblingListing |}
  | S _ => Ok (Sample.file Sample.titled)
  end.

End Scenario.

(** * Properties *)

(** ** The definitions at work *)

Example parseInt_decimal : parseInt "60" = Num 60.
Proof. reflexivity. Qed.

Example parseInt_stops_at_first_non_digit : parseInt " -12px" = Num (-12).
Proof. reflexivity. Qed.

Example parseInt_hexadecimal : parseInt "0x1F" = Num 31.
Proof. reflexivity. Qed.

Example parseInt_without_digits : parseInt "soon" = NaN ∧ parseInt "" = NaN.
Proof. split; reflexivity. Qed.

Example headers_with_unreadable_numbers_still_parse :
  parseRateLimitHeaders (Sample.quota "none" "1")
  = Some {| limit := Num 60; remaining := NaN;
            reset := {| getTime := Num 1893456000000 |}; used := Num 1 |}.
Proof. reflexivity. Qed.

Example remote_run_trace :
  trace (getGitHubFiles (RT := Sample.runtime Sample.repository)
           Sample.prodEnv)
  = [Fetch (apiUrl Sample.prodEnv) (getGitHubHeaders Sample.prodEnv);
     ConsoleLog "No rate limit information available";
     Fetch (Sample.raw +:+ "index.md") (getGitHubHeaders Sample.prodEnv);
     Fetch (Sample.raw +:+ "logo.png") (getGitHubHeaders Sample.prodEnv);
     Fetch (Sample.raw +:+ "gone.md") (getGitHubHeaders Sample.prodEnv);
     Fetch (Sample.raw +:+ "meta.json") (getGitHubHeaders Sample.prodEnv);
     Fetch (Sample.raw +:+ "guide/shadow.mdx")
       (getGitHubHeaders Sample.prodEnv);
     ConsoleError "Failed to fetch file: content/docs/gone.md"].
Proof. reflexivity. Qed.

Example remote_run_paths :
  match outcome (getGitHubFiles (RT := Sample.runtime Sample.repository)
                   Sample.prodEnv) with
  | Ok [Page "index.md" _; Meta "meta.json" (JArr []);
        Page "guide/shadow.mdx" _] => True
  | _ => False
  end.
Proof. exact I. Qed.

Example development_run :
  trace (getFiles (RT := Sample.runtime Sample.repository) Sample.devEnv)
  = [ConsoleInfo "development Loaded 3 files"].
Proof. reflexivity. Qed.

Example production_environment_accepted :
  validateEnv {[ "NODE_ENV" := "production"; "GITHUB_OWNER" := "acme";
                 "GITHUB_REPO" := "handbook" ]}
  = ([ConsoleWarn
        "GITHUB_TOKEN is not set. You may encounter rate limiting issues."],
     Ok Sample.prodEnv).
Proof. reflexivity. Qed.

Example unknown_mode_rejected :
  outcome (validateEnv {[ "NODE_ENV" := "test" ]})
  = Throw (Error
      "NODE_ENV: Invalid enum value. Expected 'development' | 'production', received 'test'").
Proof. reflexivity. Qed.

(** ** Computations *)

Lemma bind_ret_l {A B} (a : A) (k : A → Comp B) : bind (ret a) k = k a.
Proof. unfold bind, ret, trace, outcome. by destruct (k a). Qed.

Lemma bind_emit {A} (ev : event) (k : unit → Comp A) :
  bind (emit ev) k = (ev :: trace (k tt), outcome (k tt)).
Proof. reflexivity. Qed.

Lemma bind_lift_Ok {A B} (a : A) (k : A → Comp B) :
  bind (lift (Ok a)) k = k a.
Proof. apply bind_ret_l. Qed.

Lemma trace_bind {A B} (m : Comp A) (k : A → Comp B) :
  trace (bind m k) =
  trace m ++ match outcome m with Ok a => trace (k a) | Throw _ => [] end.
Proof. destruct m as [t [a|e]]; simpl; [done | by rewrite app_nil_r]. Qed.

Lemma outcome_bind {A B} (m : Comp A) (k : A → Comp B) :
  outcome (bind m k) =
  match outcome m with Ok a => outcome (k a) | Throw e => Throw e end.
Proof. by destruct m as [t [a|e]]. Qed.

Lemma bind_assoc {A B C} (m : Comp A) (k : A → Comp B) (k' : B → Comp C) :
  bind (bind m k) k' = bind m (λ a, bind (k a) k').
Proof.
  destruct m as [t [a|e]]; [|done]. simpl.
  destruct (k a) as [t' [b|e]]; simpl; [|done].
  by rewrite app_assoc.
Qed.

Lemma try_catch_emit {A} (ev : event) (m : Comp A) (h : error → Comp A) :
  try_catch (emit ev ;; m) h =
  (ev :: trace (try_catch m h), outcome (try_catch m h)).
Proof. by destruct m as [t [a|e]]. Qed.

Section SourceFacts.
Context `{RT : Runtime}.
Variable env : Env.

Lemma logRateLimitInfo_outcome info : outcome (logRateLimitInfo info) = Ok tt.
Proof. by destruct info. Qed.

Lemma getGitHubFiles_response response :
  truthy env.(GITHUB_OWNER) = true →
  truthy env.(GITHUB_REPO) = true →
  fetch 0 (apiUrl env) (getGitHubHeaders env) = Ok response →
  getGitHubFiles env =
    (Fetch (apiUrl env) (getGitHubHeaders env)
       :: trace (afterResponse env response),
     outcome (afterResponse env response)).
Proof.
  intros Ho Hr Hf. unfold getGitHubFiles, afterResponse, request.
  rewrite Ho, Hr. cbn [negb orb].
  rewrite bind_assoc, try_catch_emit, bind_ret_l, Hf.
  unfold await. by rewrite bind_lift_Ok.
Qed.

Lemma outcome_try_catch {A} (m : Comp A) (h : error → Comp A) :
  outcome (try_catch m h) =
  match outcome m with Ok a => Ok a | Throw e => outcome (h e) end.
Proof. by destruct m as [t [a|e]]. Qed.

Lemma strict_eq_zero (a : number) : strict_eq a (Num 0) = true ↔ a = Num 0.
Proof.
  destruct a as [|z]; simpl; [done|].
  rewrite Z.eqb_eq. split; congruence.
Qed.

(** The error thrown for a listing response that is not [ok]. *)
Lemma afterResponse_rejected response :
  ok response = false →
  outcome (afterResponse env response) =
  Throw
    match parseRateLimitHeaders response.(response_headers) with
    | Some info =>
        if strict_eq info.(remaining) (Num 0) then
          new_GitHubRateLimitError
            ("GitHub API rate limit exceeded. Rate limit will reset at "
             +:+ toLocaleString info.(reset)) info
        else
          GitHubApiError ("GitHub API error: " +:+ response.(statusText))
            response.(status)
    | None =>
        GitHubApiError ("GitHub API error: " +:+ response.(statusText))
          response.(status)
    end.
Proof.
  intros Hok. unfold afterResponse.
  rewrite outcome_try_catch, outcome_bind, logRateLimitInfo_outcome.
  rewrite outcome_bind, Hok. cbn [negb]. unfold rejectResponse.
  destruct (parseRateLimitHeaders _) as [info|]; [|done].
  destruct (strict_eq _ _); done.
Qed.

Lemma truthy_Some (v : option string) :
  truthy v = true ↔ ∃ s, v = Some s ∧ s ≠ "".
Proof.
  destruct v as [s|]; simpl.
  - rewrite negb_true_iff, String.eqb_neq. split.
    + intros Hs. by exists s.
    + intros (s' & Heq & Hs). by simplify_eq.
  - split; [done|]. by intros (s' & Heq & _).
Qed.

(** Parsing succeeds exactly when the four fields are present and
    non-empty, and then reads each of them with [parseInt]. *)
Lemma parseRateLimitHeaders_Some (hdrs : gmap string string) info :
  parseRateLimitHeaders hdrs = Some info ↔
  ∃ l r s u,
    hdrs !! "x-ratelimit-limit" = Some l ∧ l ≠ "" ∧
    hdrs !! "x-ratelimit-remaining" = Some r ∧ r ≠ "" ∧
    hdrs !! "x-ratelimit-reset" = Some s ∧ s ≠ "" ∧
    hdrs !! "x-ratelimit-used" = Some u ∧ u ≠ "" ∧
    info = {| limit := parseInt l; remaining := parseInt r;
              reset := newDate (times (parseInt s) 1000);
              used := parseInt u |}.
Proof.
  unfold parseRateLimitHeaders, headers_get.
  destruct (truthy (hdrs !! "x-ratelimit-limit")) eqn:Hl;
  destruct (truthy (hdrs !! "x-ratelimit-remaining")) eqn:Hr;
  destruct (truthy (hdrs !! "x-ratelimit-reset")) eqn:Hs;
  destruct (truthy (hdrs !! "x-ratelimit-used")) eqn:Hu; cbn [negb orb];
  try (split; [done|];
       intros (l & r & s & u & El & Nl & Er & Nr & Es & Ns & Eu & Nu & _);
       rewrite ?El, ?Er, ?Es, ?Eu in *;
       match goal with
       | H : truthy (Some ?x) = false |- _ =>
           assert (truthy (Some x) = true) by (apply truthy_Some; eauto);
           congruence
       end).
  apply truthy_Some in Hl as (l & El & Nl), Hr as (r & Er & Nr),
    Hs as (s & Es & Ns), Hu as (u & Eu & Nu).
  rewrite El, Er, Es, Eu. simpl. split.
  - intros [= <-]. by exists l, r, s, u.
  - intros (? & ? & ? & ? & E1 & _ & E2 & _ & E3 & _ & E4 & _ & ->).
    by simplify_eq.
Qed.

Lemma parseRateLimitHeaders_absent (hdrs : gmap string string) name :
  name ∈ rateLimitHeaderNames → hdrs !! name = None →
  parseRateLimitHeaders hdrs = None.
Proof.
  intros Hin Hnone.
  destruct (parseRateLimitHeaders hdrs) as [info|] eqn:Hp; [|done].
  apply parseRateLimitHeaders_Some in Hp
    as (l & r & s & u & El & _ & Er & _ & Es & _ & Eu & _ & _).
  unfold rateLimitHeaderNames in Hin.
  rewrite !elem_of_cons, elem_of_nil in Hin.
  destruct Hin as [->|[->|[->|[->|[]]]]]; congruence.
Qed.

(** *** The successful run *)

Lemma startFetches_eq n init files :
  startFetches env n init files =
  (map (λ file, Fetch (fileUrl env file) init) files,
   Ok (pendingFetches env n init files)).
Proof.
  revert n. induction files as [|file files IH]; intros n; [done|].
  cbn [startFetches pendingFetches]. unfold request.
  rewrite bind_assoc, bind_emit, bind_ret_l, IH.
  unfold bind, ret. cbn [trace outcome fst snd map]. by rewrite app_nil_r.
Qed.

Lemma allSettled_eq {A} (ps : list (Comp A)) :
  allSettled ps = (flat_map trace ps, Ok (map settled ps)).
Proof.
  induction ps as [|p ps IH]; [done|].
  cbn [allSettled flat_map map]. rewrite IH. unfold settle, settled.
  cbn. by rewrite app_nil_r.
Qed.

Lemma collected_values (l : list (GitHubTreeItem * Result Response)) :
  filter_Boolean (fulfilled_values (map settled (map (fileCallback env) l)))
  = omap (fileValue env) l.
Proof.
  unfold filter_Boolean, fulfilled_values.
  induction l as [|s l IH]; [done|].
  cbn [map List.filter omap list_omap]. rewrite <- IH.
  unfold fileValue.
  destruct (settled (fileCallback env s)) as [v|e] eqn:Hs;
    unfold settled in Hs;
    destruct (outcome (fileCallback env s)) as [[file|]|e'];
    by simplify_eq.
Qed.

Lemma pendingFetches_fst n init files :
  map fst (pendingFetches env n init files) = files.
Proof.
  revert n. induction files as [|f files IH]; intros n; simpl; [done|].
  by rewrite IH.
Qed.

Lemma pendingFetches_lookup n init files i file :
  files !! i = Some file →
  pendingFetches env n init files !! i
  = Some (file, fetch (n + i) (fileUrl env file) init).
Proof.
  revert n i. induction files as [|f files IH]; intros n i; [done|].
  destruct i as [|i]; simpl.
  - intros [= ->]. by rewrite Nat.add_0_r.
  - intros Hi. rewrite (IH (S n) i Hi). do 3 f_equal. lia.
Qed.

(** What a callback writes: one line when its request failed. *)
Lemma fileCallback_trace started :
  trace (fileCallback env started) =
  if httpFailed started
  then [ConsoleError ("Failed to fetch file: " +:+ started.1.(item_path))]
  else [].
Proof.
  destruct started as [file [fileResponse|e]];
    unfold httpFailed, fileCallback, await; cbn [fst snd]; [|done].
  rewrite bind_lift_Ok.
  destruct (ok fileResponse); cbn [negb]; [|done].
  destruct (text fileResponse) as [content|e]; [|done].
  rewrite bind_lift_Ok.
  destruct (_ || _).
  { by destruct (matter content). }
  destruct (String.eqb _ _); [|done].
  by destruct (JSON_parse content).
Qed.

Lemma processTree_ok init response data :
  response.(json_tree) = Ok data →
  processTree env init response =
  (map (λ file, Fetch (fileUrl env file) init) (contentFilesOf env data)
   ++ flat_map trace
        (map (fileCallback env)
           (pendingFetches env 1 init (contentFilesOf env data))),
   Ok (omap (fileValue env)
         (pendingFetches env 1 init (contentFilesOf env data)))).
Proof.
  intros Hdata. unfold processTree, await. rewrite Hdata, bind_lift_Ok.
  fold (contentFilesOf env data).
  rewrite startFetches_eq. unfold bind at 1. cbn [trace outcome fst snd].
  rewrite allSettled_eq. unfold bind. cbn [trace outcome fst snd ret].
  by rewrite collected_values, app_nil_r.
Qed.

Lemma afterResponse_ok response data :
  ok response = true →
  response.(json_tree) = Ok data →
  afterResponse env response =
  (trace (logRateLimitInfo (parseRateLimitHeaders response.(response_headers)))
   ++ map (λ file, Fetch (fileUrl env file) (getGitHubHeaders env))
        (contentFilesOf env data)
   ++ flat_map trace (map (fileCallback env) (attempts env data)),
   Ok (omap (fileValue env) (attempts env data))).
Proof.
  intros Hok Hdata. unfold afterResponse.
  rewrite Hok. cbn [negb]. rewrite bind_ret_l.
  rewrite (processTree_ok _ _ _ Hdata).
  destruct (logRateLimitInfo _) as [t [[]|e]] eqn:Hlog.
  - reflexivity.
  - pose proof (logRateLimitInfo_outcome
      (parseRateLimitHeaders response.(response_headers))) as H.
    by rewrite Hlog in H.
Qed.

Lemma requestedUrls_app t1 t2 :
  requestedUrls (t1 ++ t2) = requestedUrls t1 ++ requestedUrls t2.
Proof. unfold requestedUrls. by rewrite flat_map_app. Qed.

Lemma requestedUrls_fetches init files :
  requestedUrls (map (λ file, Fetch (fileUrl env file) init) files)
  = map (fileUrl env) files.
Proof. induction files as [|f files IH]; simpl; [done|]. by rewrite IH. Qed.

Lemma requestedUrls_log info : requestedUrls (trace (logRateLimitInfo info)) = [].
Proof. by destruct info. Qed.

Lemma requestedUrls_callbacks l :
  requestedUrls (flat_map trace (map (fileCallback env) l)) = [].
Proof.
  induction l as [|s l IH]; [done|].
  cbn [map flat_map]. rewrite requestedUrls_app, IH, fileCallback_trace.
  by destruct (httpFailed s).
Qed.

End SourceFacts.

(** ** Remote acquisition: configuration guard and listing errors *)

(** C3. When the owner or the repository name is absent (or empty),
    remote acquisition throws the "GitHub configuration is missing" error
    with an empty trace: nothing was requested and nothing was logged.
    In production mode the dispatcher fails in the same way. *)
Theorem missing_configuration_fails_before_any_request
    `{RT : Runtime} (env : Env) :
  truthy env.(GITHUB_OWNER) = false ∨ truthy env.(GITHUB_REPO) = false →
  getGitHubFiles env = ([], Throw (Error "GitHub configuration is missing"))
  ∧ requestedUrls (trace (getGitHubFiles env)) = []
  ∧ (env.(NODE_ENV) = production →
     getFiles env = ([], Throw (Error "GitHub configuration is missing"))).
Proof.
  intros Hmissing.
  assert (getGitHubFiles env
          = ([], Throw (Error "GitHub configuration is missing"))) as Hrun.
  { unfold getGitHubFiles. by destruct Hmissing as [-> | ->]; rewrite ?orb_true_r. }
  split; [done|]. split; [by rewrite Hrun|].
  intros Hmode. unfold getFiles. by rewrite Hmode, Hrun.
Qed.

Lemma missing_configuration_fails_before_any_request_witness :
  getGitHubFiles (RT := Sample.runtime Sample.repository) Sample.noRepoEnv
  = ([], Throw (Error "GitHub configuration is missing")).
Proof.
  refine (proj1 (missing_configuration_fails_before_any_request
                   (RT := Sample.runtime Sample.repository)
                   Sample.noRepoEnv _)).
  right. reflexivity.
Defined.

(** C1. A listing answered with status 403 whose quota headers parse:
    with [remaining] equal to zero the run throws an error of the class
    [GitHubRateLimitError], which carries the parsed quota, whose reset
    time is the date of a thousand times the reset header, and that error
    is not a plain [GitHubApiError]; otherwise it throws a plain
    [GitHubApiError] with status 403, and not a rate-limit error. *)
Theorem forbidden_listing_error
    `{RT : Runtime} (env : Env) (response : Response)
    (info : GitHubRateLimitInfo) :
  truthy env.(GITHUB_OWNER) = true →
  truthy env.(GITHUB_REPO) = true →
  fetch 0 (apiUrl env) (getGitHubHeaders env) = Ok response →
  response.(status) = 403 →
  parseRateLimitHeaders response.(response_headers) = Some info →
  (info.(remaining) = Num 0 →
   outcome (getGitHubFiles env) =
   Throw (GitHubRateLimitError
            ("GitHub API rate limit exceeded. Rate limit will reset at "
             +:+ toLocaleString info.(reset)) 403 info)
   ∧ (∀ message statusCode,
        outcome (getGitHubFiles env)
        ≠ Throw (GitHubApiError message statusCode))
   ∧ info.(reset) =
     newDate (times (parseInt
                       (default "" (response.(response_headers)
                                      !! "x-ratelimit-reset"))) 1000))
  ∧ (info.(remaining) ≠ Num 0 →
     outcome (getGitHubFiles env) =
     Throw (GitHubApiError ("GitHub API error: " +:+ response.(statusText))
              403)
     ∧ ∀ message statusCode rateLimitInfo,
         outcome (getGitHubFiles env)
         ≠ Throw (GitHubRateLimitError message statusCode rateLimitInfo)).
Proof.
  intros Ho Hr Hf Hstatus Hparse.
  rewrite (getGitHubFiles_response env response Ho Hr Hf).
  cbn [outcome snd].
  rewrite afterResponse_rejected by (unfold ok; rewrite Hstatus; done).
  rewrite Hparse, Hstatus. split; intros Hrem.
  - rewrite (proj2 (strict_eq_zero _) Hrem).
    split; [reflexivity|]. split; [discriminate|].
    apply parseRateLimitHeaders_Some in Hparse
      as (l & r & s & u & _ & _ & _ & _ & Hs & _ & _ & _ & ->).
    by rewrite Hs.
  - destruct (strict_eq _ _) eqn:Heq.
    + by apply strict_eq_zero in Heq.
    + split; [reflexivity | discriminate].
Qed.

Lemma forbidden_listing_error_witness :
  outcome (getGitHubFiles
             (RT := Sample.runtime
                      (Sample.always (Sample.forbidden (Sample.quota "0" "60"))))
             Sample.prodEnv)
  = Throw (GitHubRateLimitError
             "GitHub API rate limit exceeded. Rate limit will reset at t=1893456000000"
             403
             {| limit := Num 60; remaining := Num 0;
                reset := {| getTime := Num 1893456000000 |};
                used := Num 60 |})
  ∧ outcome (getGitHubFiles
               (RT := Sample.runtime
                        (Sample.always
                           (Sample.forbidden (Sample.quota "12" "48"))))
               Sample.prodEnv)
    = Throw (GitHubApiError "GitHub API error: Forbidden" 403).
Proof.
  split.
  - refine (proj1 (proj1 (forbidden_listing_error
             (RT := Sample.runtime
                      (Sample.always (Sample.forbidden (Sample.quota "0" "60"))))
             Sample.prodEnv (Sample.forbidden (Sample.quota "0" "60"))
             {| limit := Num 60; remaining := Num 0;
                reset := {| getTime := Num 1893456000000 |};
                used := Num 60 |} _ _ _ _ _) _)); reflexivity.
  - refine (proj1 (proj2 (forbidden_listing_error
             (RT := Sample.runtime
                      (Sample.always
                         (Sample.forbidden (Sample.quota "12" "48"))))
             Sample.prodEnv (Sample.forbidden (Sample.quota "12" "48"))
             {| limit := Num 60; remaining := Num 12;
                reset := {| getTime := Num 1893456000000 |};
                used := Num 48 |} _ _ _ _ _) _));
      [reflexivity .. | discriminate].
Defined.



(** ** Remote acquisition: the successful run *)

Lemma getGitHubFiles_ok `{RT : Runtime} (env : Env) response data :
  truthy env.(GITHUB_OWNER) = true →
  truthy env.(GITHUB_REPO) = true →
  fetch 0 (apiUrl env) (getGitHubHeaders env) = Ok response →
  ok response = true →
  response.(json_tree) = Ok data →
  getGitHubFiles env =
  (Fetch (apiUrl env) (getGitHubHeaders env)
     :: trace (logRateLimitInfo
                 (parseRateLimitHeaders response.(response_headers)))
     ++ map (λ file, Fetch (fileUrl env file) (getGitHubHeaders env))
          (contentFilesOf env data)
     ++ flat_map trace (map (fileCallback env) (attempts env data)),
   Ok (omap (fileValue env) (attempts env data))).
Proof.
  intros Ho Hr Hf Hok Hdata.
  rewrite (getGitHubFiles_response env response Ho Hr Hf).
  by rewrite (afterResponse_ok env response data Hok Hdata).
Qed.

Lemma getGitHubFiles_requests `{RT : Runtime} (env : Env) response data :
  truthy env.(GITHUB_OWNER) = true →
  truthy env.(GITHUB_REPO) = true →
  fetch 0 (apiUrl env) (getGitHubHeaders env) = Ok response →
  ok response = true →
  response.(json_tree) = Ok data →
  requestedUrls (trace (getGitHubFiles env))
  = apiUrl env :: map (fileUrl env) (contentFilesOf env data).
Proof.
  intros Ho Hr Hf Hok Hdata.
  rewrite (getGitHubFiles_ok env response data Ho Hr Hf Hok Hdata).
  cbn [trace fst]. change (requestedUrls (Fetch ?u ?i :: ?t))
    with (u :: requestedUrls t).
  rewrite !requestedUrls_app, requestedUrls_log, requestedUrls_fetches.
  by rewrite requestedUrls_callbacks, app_nil_r.
Qed.

(** C6. When one of the four quota headers is absent from a response,
    header parsing yields no snapshot and logging it writes the line
    "No rate limit information available" and returns normally.  The run
    goes on: for a successful listing the file requests are sent and the
    virtual files are returned. *)
Theorem absent_quota_header_is_not_fatal
    `{RT : Runtime} (env : Env) (response : Response) (name : string) :
  name ∈ rateLimitHeaderNames →
  response.(response_headers) !! name = None →
  parseRateLimitHeaders response.(response_headers) = None
  ∧ logRateLimitInfo (parseRateLimitHeaders response.(response_headers))
    = ([ConsoleLog "No rate limit information available"], Ok tt)
  ∧ (∀ data,
       truthy env.(GITHUB_OWNER) = true →
       truthy env.(GITHUB_REPO) = true →
       fetch 0 (apiUrl env) (getGitHubHeaders env) = Ok response →
       ok response = true →
       response.(json_tree) = Ok data →
       ∃ rest,
         getGitHubFiles env =
         (Fetch (apiUrl env) (getGitHubHeaders env)
            :: ConsoleLog "No rate limit information available" :: rest,
          Ok (omap (fileValue env) (attempts env data)))
         ∧ requestedUrls rest = map (fileUrl env) (contentFilesOf env data)).
Proof.
  intros Hin Hnone.
  pose proof (parseRateLimitHeaders_absent _ _ Hin Hnone) as Hparse.
  split; [done|]. split; [by rewrite Hparse|].
  intros data Ho Hr Hf Hok Hdata.
  pose proof (getGitHubFiles_requests env response data Ho Hr Hf Hok Hdata)
    as Hreq.
  rewrite (getGitHubFiles_ok env response data Ho Hr Hf Hok Hdata) in *.
  rewrite Hparse in *. cbn [logRateLimitInfo emit trace fst app] in *.
  eexists. split; [reflexivity|].
  cbn [requestedUrls flat_map app] in Hreq. by injection Hreq.
Qed.

Lemma absent_quota_header_is_not_fatal_witness :
  parseRateLimitHeaders (delete "x-ratelimit-used" (Sample.quota "59" "1"))
  = None.
Proof.
  refine (proj1 (absent_quota_header_is_not_fatal
                   (RT := Sample.runtime Sample.repository) Sample.prodEnv
                   {| status := 200; statusText := "OK";
                      response_headers :=
                        delete "x-ratelimit-used" (Sample.quota "59" "1");
                      text := Ok ""; json_tree := Ok Sample.listing |}
                   "x-ratelimit-used" _ _)).
  - apply (bool_decide_unpack _). reflexivity.
  - reflexivity.
Defined.

(** ** Remote acquisition: selection of the content files *)

Lemma filter_Permutation_bool {A} (f : A → bool) (l l' : list A) :
  l ≡ₚ l' → List.filter f l ≡ₚ List.filter f l'.
Proof.
  induction 1 as [|x l l' _ IH|x y l|l l' l'' _ IH1 _ IH2]; simpl.
  - done.
  - destruct (f x); by rewrite IH.
  - destruct (f x), (f y); try done. apply perm_swap.
  - by rewrite IH1.
Qed.

Lemma filter_all {A} (f : A → bool) (l : list A) :
  Forall (λ x, f x = true) l → List.filter f l = l.
Proof. induction 1 as [|x l Hx _ IH]; simpl; [done|]. by rewrite Hx, IH. Qed.

Lemma filter_none {A} (f : A → bool) (l : list A) :
  Forall (λ x, f x = false) l → List.filter f l = [].
Proof. induction 1 as [|x l Hx _ IH]; simpl; [done|]. by rewrite Hx, IH. Qed.

Lemma isContentFile_spec (env : Env) (item : GitHubTreeItem) :
  isContentFile env item = true ↔
  item.(item_type) = blob
  ∧ String.prefix env.(GITHUB_CONTENT_PATH) item.(item_path) = true.
Proof.
  unfold isContentFile. rewrite andb_true_iff, bool_decide_eq_true. done.
Qed.

(** C4. Let the listing consist, in any order, of [inside] (blobs whose
    path starts with the content path), [outside] (blobs whose path does
    not) and [others] (entries that are not blobs).  Then the files
    requested after the listing are those of the selected entries, the
    selected entries are the entries of [inside] up to order, so there
    are exactly as many of them, no entry of [outside] or [others] is
    selected, and reordering the listing only reorders the selection. *)
Theorem content_files_selected
    `{RT : Runtime} (env : Env) (response : Response)
    (data : GitHubTreeResponse) (inside outside others : list GitHubTreeItem) :
  truthy env.(GITHUB_OWNER) = true →
  truthy env.(GITHUB_REPO) = true →
  fetch 0 (apiUrl env) (getGitHubHeaders env) = Ok response →
  ok response = true →
  response.(json_tree) = Ok data →
  Forall (λ item, item.(item_type) = blob
                  ∧ String.prefix env.(GITHUB_CONTENT_PATH) item.(item_path)
                    = true) inside →
  Forall (λ item, item.(item_type) = blob
                  ∧ String.prefix env.(GITHUB_CONTENT_PATH) item.(item_path)
                    = false) outside →
  Forall (λ item, item.(item_type) ≠ blob) others →
  data.(tree_items) ≡ₚ inside ++ outside ++ others →
  requestedUrls (trace (getGitHubFiles env))
  = apiUrl env :: map (fileUrl env) (contentFilesOf env data)
  ∧ contentFilesOf env data ≡ₚ inside
  ∧ length (contentFilesOf env data) = length inside
  ∧ (∀ item, item ∈ outside ++ others → item ∉ contentFilesOf env data)
  ∧ (∀ data', data'.(tree_items) ≡ₚ data.(tree_items) →
       contentFilesOf env data' ≡ₚ contentFilesOf env data).
Proof.
  intros Ho Hr Hf Hok Hdata Hin Hout Hoth Hperm.
  split; [by eapply getGitHubFiles_requests|].
  assert (contentFilesOf env data ≡ₚ inside) as Hsel.
  { unfold contentFilesOf.
    rewrite (filter_Permutation_bool _ _ _ Hperm), !List.filter_app.
    rewrite (filter_all _ inside), (filter_none _ outside),
      (filter_none _ others), !app_nil_r; [done| | |].
    - eapply Forall_impl; [exact Hoth|]. intros item Hty. cbn beta in *.
      destruct (isContentFile env item) eqn:Hc; [|done].
      apply isContentFile_spec in Hc as [Hb _]. done.
    - eapply Forall_impl; [exact Hout|]. intros item [_ Hp]. cbn beta.
      destruct (isContentFile env item) eqn:Hc; [|done].
      apply isContentFile_spec in Hc as [_ Hp']. congruence.
    - eapply Forall_impl; [exact Hin|]. intros item [Hb Hp]. cbn beta.
      by apply isContentFile_spec. }
  split; [done|]. split; [by rewrite Hsel|]. split.
  - intros item Hitem Hsel'. unfold contentFilesOf in Hsel'.
    apply list_elem_of_In, List.filter_In in Hsel' as [_ Hc].
    apply isContentFile_spec in Hc as [Hb Hp].
    apply elem_of_app in Hitem as [Hitem|Hitem].
    + rewrite Forall_forall in Hout. destruct (Hout item Hitem). congruence.
    + rewrite Forall_forall in Hoth. by apply (Hoth item Hitem).
  - intros data' Hperm'. by apply filter_Permutation_bool.
Qed.

Lemma content_files_selected_witness :
  requestedUrls
    (trace (getGitHubFiles (RT := Sample.runtime Sample.repository)
              Sample.prodEnv))
  = apiUrl Sample.prodEnv
      :: map (fileUrl Sample.prodEnv)
           (contentFilesOf Sample.prodEnv Sample.listing)
  ∧ length (contentFilesOf Sample.prodEnv Sample.listing) = 5%nat.
Proof.
  pose proof (content_files_selected
    (RT := Sample.runtime Sample.repository) Sample.prodEnv
    {| status := 200; statusText := "OK";
       response_headers := delete "x-ratelimit-used" (Sample.quota "59" "1");
       text := Ok ""; json_tree := Ok Sample.listing |}
    Sample.listing
    [Sample.entry "content/docs/index.md" blob;
     Sample.entry "content/docs/logo.png" blob;
     Sample.entry "content/docs/gone.md" blob;
     Sample.entry "content/docs/meta.json" blob;
     Sample.entry "content/docs/guide/shadow.mdx" blob]
    [Sample.entry "README.md" blob; Sample.entry "src/main.ts" blob]
    [Sample.entry "content/docs" tree; Sample.entry "content/docs/guide" tree]
    eq_refl eq_refl eq_refl eq_refl eq_refl) as H.
  destruct H as (Hurls & _ & Hlen & _).
  - repeat constructor.
  - repeat constructor.
  - repeat constructor; discriminate.
  - apply (bool_decide_unpack _). vm_compute. reflexivity.
  - split; [exact Hurls | exact Hlen].
Defined.

(** ** Remote acquisition: failed and skipped files *)

Section Attempts.
Context `{RT : Runtime}.
Variable env : Env.

Local Open Scope nat_scope.

(** Every attempt is of exactly one kind: it yields a virtual file, or
    its request failed, or it is skipped. *)
Lemma attempt_kinds (started : GitHubTreeItem * Result Response) :
  (if fileValue env started is Some _ then 1 else 0)
  + (if httpFailed started then 1 else 0)
  + (if skipped started then 1 else 0) = 1.
Proof.
  destruct started as [file [fileResponse|e]];
    unfold fileValue, httpFailed, skipped, fileCallback, await;
    cbn [fst snd]; [|done].
  rewrite bind_lift_Ok.
  destruct (ok fileResponse); cbn [negb andb]; [|done].
  destruct (text fileResponse) as [content|e]; [|done].
  rewrite bind_lift_Ok.
  destruct (_ || _).
  { by destruct (matter content). }
  destruct (String.eqb _ _); [|done].
  by destruct (JSON_parse content).
Qed.

Lemma attempts_partition (l : list (GitHubTreeItem * Result Response)) :
  length (omap (fileValue env) l)
  + length (List.filter httpFailed l)
  + length (List.filter skipped l) = length l.
Proof.
  induction l as [|s l IH]; [done|].
  pose proof (attempt_kinds s) as Hs. cbn [omap list_omap List.filter length].
  destruct (fileValue env s), (httpFailed s), (skipped s);
    cbn [length] in *; lia.
Qed.

Lemma callback_trace_included (l : list (GitHubTreeItem * Result Response))
    started ev :
  started ∈ l → ev ∈ trace (fileCallback env started) →
  ev ∈ flat_map trace (map (fileCallback env) l).
Proof.
  intros Hs Hev. apply list_elem_of_In, in_flat_map.
  exists (fileCallback env started). split.
  - apply in_map. by apply list_elem_of_In.
  - by apply list_elem_of_In.
Qed.

Lemma httpFailed_no_file started :
  httpFailed started = true → fileValue env started = None.
Proof.
  intros Hfailed. pose proof (attempt_kinds started) as Hk.
  rewrite Hfailed in Hk. destruct (fileValue env started); [lia | done].
Qed.

End Attempts.

(** C2, as stated, fails: in the sample repository five files are
    attempted and one request fails, but the result has three entries,
    because [logo.png] is fetched and then dropped for its extension. *)
Lemma failed_fetches_count_counterexample :
  ¬ (∀ files,
       outcome (getGitHubFiles (RT := Sample.runtime Sample.repository)
                  Sample.prodEnv) = Ok files →
       length files =
       (length (attempts (RT := Sample.runtime Sample.repository)
                  Sample.prodEnv Sample.listing)
        - length (List.filter httpFailed
                    (attempts (RT := Sample.runtime Sample.repository)
                       Sample.prodEnv Sample.listing)))%nat).
Proof.
  intros Hclaim. specialize (Hclaim _ eq_refl). vm_compute in Hclaim.
  discriminate Hclaim.
Qed.

(** C2, amended. After a successful listing the run succeeds whatever
    the per-file requests return: every selected file is requested, the
    result is made of what each attempt yields on its own, every attempt
    answered with a non-success status is logged and yields nothing, and
    the number of virtual files is the number of attempts minus the failed
    ones minus the skipped ones; with no skipped attempt it is the number
    of attempts minus the failed ones. *)
Theorem failed_fetches_are_dropped
    `{RT : Runtime} (env : Env) (response : Response)
    (data : GitHubTreeResponse) :
  truthy env.(GITHUB_OWNER) = true →
  truthy env.(GITHUB_REPO) = true →
  fetch 0 (apiUrl env) (getGitHubHeaders env) = Ok response →
  ok response = true →
  response.(json_tree) = Ok data →
  ∃ files,
    outcome (getGitHubFiles env) = Ok files
    ∧ files = omap (fileValue env) (attempts env data)
    ∧ requestedUrls (trace (getGitHubFiles env))
      = apiUrl env :: map (fileUrl env) (map fst (attempts env data))
    ∧ (∀ started, started ∈ attempts env data → httpFailed started = true →
         ConsoleError ("Failed to fetch file: " +:+ started.1.(item_path))
           ∈ trace (getGitHubFiles env)
         ∧ fileValue env started = None)
    ∧ length files =
      (length (attempts env data)
       - length (List.filter httpFailed (attempts env data))
       - length (List.filter (skipped) (attempts env data)))%nat
    ∧ (Forall (λ started, skipped started = false) (attempts env data) →
       length files =
       (length (attempts env data)
        - length (List.filter httpFailed (attempts env data)))%nat).
Proof.
  intros Ho Hr Hf Hok Hdata.
  pose proof (getGitHubFiles_requests env response data Ho Hr Hf Hok Hdata)
    as Hreq.
  pose proof (getGitHubFiles_ok env response data Ho Hr Hf Hok Hdata) as Hrun.
  pose proof (attempts_partition env (attempts env data)) as Hcount.
  exists (omap (fileValue env) (attempts env data)).
  split; [by rewrite Hrun|]. split; [done|]. split.
  { rewrite Hreq. unfold attempts. by rewrite pendingFetches_fst. }
  split; [|split].
  - intros started Hin Hfailed. split; [|by apply httpFailed_no_file].
    rewrite Hrun. cbn [trace fst]. apply elem_of_cons. right.
    rewrite !elem_of_app. right. right.
    apply (callback_trace_included env _ started); [done|].
    rewrite fileCallback_trace, Hfailed. by apply list_elem_of_singleton.
  - lia.
  - intros Hnone. rewrite (filter_none _ _ Hnone) in Hcount.
    cbn [length] in Hcount. lia.
Qed.

Lemma failed_fetches_are_dropped_witness :
  ∃ files,
    outcome (getGitHubFiles (RT := Sample.runtime Sample.repository)
               Sample.prodEnv) = Ok files
    ∧ length files = 3%nat.
Proof.
  destruct (failed_fetches_are_dropped
    (RT := Sample.runtime Sample.repository) Sample.prodEnv
    {| status := 200; statusText := "OK";
       response_headers := delete "x-ratelimit-used" (Sample.quota "59" "1");
       text := Ok ""; json_tree := Ok Sample.listing |}
    Sample.listing eq_refl eq_refl eq_refl eq_refl eq_refl)
    as (files & Hrun & _ & _ & _ & Hlen & _).
  exists files. split; [exact Hrun|]. exact Hlen.
Defined.

(** ** Classification of Markdown files *)

Lemma flatMapM_elem {A B} (f : A → Comp (list B)) (l : list A) x ys zs z :
  outcome (flatMapM f l) = Ok ys → x ∈ l → outcome (f x) = Ok zs →
  z ∈ zs → z ∈ ys.
Proof.
  revert ys. induction l as [|a l IH]; intros ys Hrun Hx Hfx Hz.
  - by apply elem_of_nil in Hx.
  - cbn [flatMapM] in Hrun. rewrite outcome_bind in Hrun.
    destruct (outcome (f a)) as [here|e] eqn:Hfa; [|done].
    rewrite outcome_bind in Hrun.
    destruct (outcome (flatMapM f l)) as [rest|e] eqn:Hrest; [|done].
    injection Hrun as <-. apply elem_of_app.
    apply elem_of_cons in Hx as [->|Hx].
    + left. congruence.
    + right. by apply IH.
Qed.

Lemma flatMapM_silent {A B} (f : A → Comp (list B)) (l : list A) :
  (∀ x, trace (f x) = []) → trace (flatMapM f l) = [].
Proof.
  intros Hf. induction l as [|a l IH]; [done|].
  cbn [flatMapM]. rewrite trace_bind, Hf.
  destruct (outcome (f a)); [|done].
  rewrite trace_bind, IH. by destruct (outcome (flatMapM f l)).
Qed.

Section Pages.
Context `{RT : Runtime}.

Lemma localFile_silent entry : trace (localFile entry) = [].
Proof.
  destruct entry as [file content]. unfold localFile.
  destruct (_ || _).
  { by destruct (matter content). }
  destruct (String.eqb _ _); [|done].
  by destruct (JSON_parse content).
Qed.

Lemma getLocalFiles_silent : trace getLocalFiles = [].
Proof. apply flatMapM_silent, localFile_silent. Qed.

Lemma markdown_ext (ext : string) :
  ext = ".md" ∨ ext = ".mdx" →
  String.eqb ext ".mdx" || String.eqb ext ".md" = true.
Proof. by intros [-> | ->]. Qed.

Lemma localFile_markdown file content parsed :
  extname file = ".md" ∨ extname file = ".mdx" →
  matter content = Ok parsed →
  localFile (file, content) =
  ret [Page (relative "content/docs" (join cwd file))
         (<["content" := JStr parsed.(matter_content)]> parsed.(matter_data))].
Proof.
  intros Hext Hparsed. unfold localFile.
  by rewrite (markdown_ext _ Hext), Hparsed, bind_lift_Ok.
Qed.

Lemma fileValue_markdown env item response content parsed :
  extname item.(item_path) = ".md" ∨ extname item.(item_path) = ".mdx" →
  ok response = true →
  response.(text) = Ok content →
  matter content = Ok parsed →
  fileValue env (item, Ok response) =
  Some (Page (relative env.(GITHUB_CONTENT_PATH) item.(item_path))
          (<["content" := JStr parsed.(matter_content)]>
             parsed.(matter_data))).
Proof.
  intros Hext Hok Htext Hparsed. unfold fileValue, fileCallback, await.
  rewrite bind_lift_Ok, Hok. cbn [negb].
  by rewrite Htext, bind_lift_Ok, (markdown_ext _ Hext), Hparsed, bind_lift_Ok.
Qed.

End Pages.

(** C5. A file whose extension is [.md] or [.mdx] and whose front matter
    parses becomes a page whose data is the front-matter mapping with the
    body stored under ["content"]: this is what the local callback
    returns and what local acquisition lists for an entry of the content
    directory, and what a fetched file yields and remote acquisition
    lists for an attempt whose request succeeded.  For the front matter
    [{title: "A"}] and the body ["hello"] the data is
    [{title: "A", content: "hello"}]. *)
Theorem markdown_becomes_page
    `{RT : Runtime} (env : Env) (file content : string)
    (parsed : GrayMatterFile) :
  extname file = ".md" ∨ extname file = ".mdx" →
  matter content = Ok parsed →
  let pageData : gmap string json :=
    <["content" := JStr parsed.(matter_content)]> parsed.(matter_data) in
  let localPage := Page (relative "content/docs" (join cwd file)) pageData in
  let remotePage := Page (relative env.(GITHUB_CONTENT_PATH) file) pageData in
  localFile (file, content) = ret [localPage]
  ∧ (∀ files, outcome getLocalFiles = Ok files → (file, content) ∈ glob →
       localPage ∈ files)
  ∧ (∀ item response,
       item.(item_path) = file → ok response = true →
       response.(text) = Ok content →
       fileValue env (item, Ok response) = Some remotePage
       ∧ ∀ listed data,
           truthy env.(GITHUB_OWNER) = true →
           truthy env.(GITHUB_REPO) = true →
           fetch 0 (apiUrl env) (getGitHubHeaders env) = Ok listed →
           ok listed = true →
           listed.(json_tree) = Ok data →
           (item, Ok response) ∈ attempts env data →
           ∃ files, outcome (getGitHubFiles env) = Ok files
                    ∧ remotePage ∈ files)
  ∧ (parsed.(matter_data) = {[ "title" := JStr "A" ]} →
     parsed.(matter_content) = "hello" →
     pageData = {[ "title" := JStr "A"; "content" := JStr "hello" ]}).
Proof.
  intros Hext Hparsed pageData localPage remotePage.
  pose proof (localFile_markdown file content parsed Hext Hparsed) as Hlocal.
  split; [done|]. split; [|split].
  - intros files Hrun Hin.
    eapply (flatMapM_elem localFile glob (file, content)); [done..| |].
    + by rewrite Hlocal.
    + by apply list_elem_of_singleton.
  - intros item response <- Hok Htext.
    pose proof (fileValue_markdown env item response content parsed
                  Hext Hok Htext Hparsed) as Hvalue.
    split; [done|].
    intros listed data Ho Hr Hf Hlok Hdata Hin.
    rewrite (getGitHubFiles_ok env listed data Ho Hr Hf Hlok Hdata).
    eexists. split; [reflexivity|].
    apply list_elem_of_omap. by exists (item, Ok response).
  - intros Hdata Hbody. subst pageData. rewrite Hdata, Hbody.
    rewrite <- !insert_empty. by apply insert_insert_ne.
Qed.

Lemma markdown_becomes_page_witness :
  localFile (RT := Sample.runtime Sample.repository)
    ("/content/docs/index.md", Sample.titled)
  = ret [Page "index.md"
           {[ "title" := JStr "A"; "content" := JStr "hello" ]}].
Proof.
  destruct (markdown_becomes_page
    (RT := Sample.runtime Sample.repository) Sample.prodEnv
    "/content/docs/index.md" Sample.titled
    {| matter_data := {[ "title" := JStr "A" ]}; matter_content := "hello" |}
    (or_introl eq_refl) eq_refl) as (Hlocal & _ & _ & Hdata).
  rewrite <- (Hdata eq_refl eq_refl). exact Hlocal.
Defined.

(** C9. When the front matter of an [.md] or [.mdx] file has a key named
    ["content"] itself, the data of the page maps ["content"] to the body
    and every other key to its front-matter value, in local and in remote
    acquisition alike. *)
Theorem body_overrides_front_matter_content
    `{RT : Runtime} (env : Env) (file content : string)
    (parsed : GrayMatterFile) :
  extname file = ".md" ∨ extname file = ".mdx" →
  matter content = Ok parsed →
  is_Some (parsed.(matter_data) !! "content") →
  ∃ pageData : gmap string json,
    pageData !! "content" = Some (JStr parsed.(matter_content))
    ∧ (∀ key, key ≠ "content" →
         pageData !! key = parsed.(matter_data) !! key)
    ∧ localFile (file, content)
      = ret [Page (relative "content/docs" (join cwd file)) pageData]
    ∧ (∀ item response,
         item.(item_path) = file → ok response = true →
         response.(text) = Ok content →
         fileValue env (item, Ok response)
         = Some (Page (relative env.(GITHUB_CONTENT_PATH) file) pageData)).
Proof.
  intros Hext Hparsed _.
  exists (<["content" := JStr parsed.(matter_content)]> parsed.(matter_data)).
  split; [apply lookup_insert_eq|]. split; [|split].
  - intros key Hkey. by apply lookup_insert_ne.
  - by apply localFile_markdown.
  - intros item response <- Hok Htext. by eapply fileValue_markdown.
Qed.

Lemma body_overrides_front_matter_content_witness :
  ∃ pageData : gmap string json,
    pageData !! "content" = Some (JStr "from the body")
    ∧ localFile (RT := Sample.runtime Sample.repository)
        ("/content/docs/guide/shadow.mdx", Sample.shadowing)
      = ret [Page "guide/shadow.mdx" pageData].
Proof.
  destruct (body_overrides_front_matter_content
    (RT := Sample.runtime Sample.repository) Sample.prodEnv
    "/content/docs/guide/shadow.mdx" Sample.shadowing
    {| matter_data := {[ "content" := JStr "from the header" ]};
       matter_content := "from the body" |}
    (or_intror eq_refl) eq_refl (ex_intro _ (JStr "from the header") eq_refl))
    as (pageData & Hcontent & _ & Hlocal & _).
  exists pageData. split; [exact Hcontent | exact Hlocal].
Defined.

(** ** The mode dispatcher *)

(** C8. In development mode [getFiles] is local acquisition followed by
    the summary line: its trace holds no request and it does not depend
    on the network at all.  In production mode it is remote acquisition
    followed by the summary line, and with owner and repository
    configured its first event is the tree-listing request. *)
Theorem mode_dispatch `{RT : Runtime} (env : Env) :
  let summary (files : list VirtualFile) : Comp (list VirtualFile) :=
    emit (ConsoleInfo (Mode_to_string env.(NODE_ENV) +:+ " Loaded " +:+
                       showNumber (Num (Z.of_nat (length files))) +:+
                       " files")) ;;
    ret files in
  match env.(NODE_ENV) with
  | development =>
      getFiles env = bind getLocalFiles summary
      ∧ requestedUrls (trace (getFiles env)) = []
      ∧ (∀ net, getFiles (RT := withFetch RT net) env = getFiles env)
  | production =>
      getFiles env = bind (getGitHubFiles env) summary
      ∧ (truthy env.(GITHUB_OWNER) = true →
         truthy env.(GITHUB_REPO) = true →
         ∃ rest,
           trace (getFiles env)
           = Fetch (apiUrl env) (getGitHubHeaders env) :: rest)
  end.
Proof.
  intros summary. destruct (NODE_ENV env) eqn:Hmode.
  - assert (getFiles env = bind getLocalFiles summary) as Hrun.
    { unfold getFiles. by rewrite Hmode. }
    split; [done|]. split.
    + rewrite Hrun, trace_bind, getLocalFiles_silent.
      by destruct (outcome getLocalFiles).
    + intros net. unfold getFiles. by rewrite Hmode.
  - assert (getFiles env = bind (getGitHubFiles env) summary) as Hrun.
    { unfold getFiles. by rewrite Hmode. }
    split; [done|]. intros Ho Hr.
    rewrite Hrun, trace_bind.
    unfold getGitHubFiles, request. rewrite Ho, Hr. cbn [negb orb].
    rewrite bind_assoc, try_catch_emit. cbn [trace fst app]. by eexists.
Qed.

(** ** The environment resolver *)

Lemma missing_falsy (v : option string) : missing v ↔ truthy v = false.
Proof.
  unfold missing. destruct v as [s|]; simpl.
  - rewrite negb_false_iff, String.eqb_eq. split.
    + by intros [|[= ->]].
    + intros ->. by right.
  - split; [done | by left].
Qed.

Lemma issueLine_required (name : string) :
  issueLine (requiredIssue name)
  = name +:+ ": " +:+ (name +:+ " is required in production mode.").
Proof. unfold issueLine, requiredIssue. by cbn. Qed.

Lemma parseNodeEnv_mode (v : option string) mode :
  parseNodeEnv v = inr mode ↔ v = Some (Mode_to_string mode).
Proof.
  unfold parseNodeEnv. destruct v as [s|]; [|by destruct mode].
  destruct (String.eqb_spec s "development") as [->|Hdev].
  { destruct mode; split; by intros [=]. }
  destruct (String.eqb_spec s "production") as [->|Hprod].
  { destruct mode; split; by intros [=]. }
  split; [done|]. destruct mode; intros [=]; by subst.
Qed.

(** C7. When the environment violates one or more of the configuration
    constraints, resolution throws a single error; the last thing written
    before is that error's message on the error console; and for every
    violated constraint the message has a line for the variable of that
    constraint. *)
Theorem invalid_environment_reports_every_violation
    (penv : gmap string string) :
  (∃ c, violates penv c) →
  ∃ message,
    outcome (validateEnv penv) = Throw (Error message)
    ∧ last (trace (validateEnv penv)) = Some (ConsoleError message)
    ∧ ∀ c, violates penv c → listsConstraint message c.
Proof.
  intros [c0 Hc0]. unfold validateEnv, envSchema_safeParse, parseObject.
  destruct (parseNodeEnv (penv !! "NODE_ENV")) as [issue|mode] eqn:Hmode.
  - (* the mode itself is rejected *)
    exists (humanReadableZodError [issue]).
    split; [done|]. split; [done|].
    intros c Hc.
    assert (issueLine issue = "NODE_ENV: " +:+ issue.(issue_message)) as Hl.
    { unfold parseNodeEnv in Hmode.
      destruct (penv !! "NODE_ENV") as [s|]; [|by injection Hmode as <-].
      destruct (String.eqb s "development"); [done|].
      destruct (String.eqb s "production"); [done|].
      by injection Hmode as <-. }
    assert (penv !! "NODE_ENV" ≠ Some "production") as Hnot.
    { intros Heq. rewrite Heq in Hmode. done. }
    exists [issueLine issue], issue.(issue_message).
    split; [done|]. rewrite Hl.
    destruct c; simpl in Hc; [by left | by destruct Hc ..].
  - apply parseNodeEnv_mode in Hmode. destruct mode; cbn in Hmode.
    + (* development: nothing can be violated *)
      exfalso. destruct c0; simpl in Hc0; unfold inProduction in Hc0;
        destruct Hc0 as [H1 H2]; congruence.
    + (* production: the refinement adds one issue per missing field *)
      unfold superRefine. cbn [NODE_ENV GITHUB_OWNER GITHUB_REPO
        GITHUB_CONTENT_PATH GITHUB_TOKEN].
      set (path := default "content/docs" (penv !! "GITHUB_CONTENT_PATH")).
      set (owner := if negb (truthy (penv !! "GITHUB_OWNER"))
                    then [requiredIssue "GITHUB_OWNER"] else []).
      set (repo := if negb (truthy (penv !! "GITHUB_REPO"))
                   then [requiredIssue "GITHUB_REPO"] else []).
      set (contentPath := if negb (truthy (Some path))
                          then [requiredIssue "GITHUB_CONTENT_PATH"] else []).
      set (warning := if negb (truthy (penv !! "GITHUB_TOKEN")) then _ else _).
      assert (∀ c, violates penv c →
                ∃ name, variableOf c = name
                        ∧ requiredIssue name ∈ owner ++ repo ++ contentPath)
        as Hlisted.
      { intros c Hc. exists (variableOf c). split; [done|].
        rewrite !elem_of_app.
        destruct c; simpl in Hc; destruct Hc as [Hp Hm].
        - simpl in Hmode. congruence.
        - left. subst owner. apply missing_falsy in Hm. rewrite Hm.
          by apply list_elem_of_singleton.
        - right; left. subst repo. apply missing_falsy in Hm. rewrite Hm.
          by apply list_elem_of_singleton.
        - right; right. subst contentPath. fold path in Hm. rewrite Hm.
          by apply list_elem_of_singleton. }
      destruct (owner ++ repo ++ contentPath) as [|issue issues] eqn:Hissues.
      { destruct (Hlisted c0 Hc0) as (name & _ & Hin).
        by apply elem_of_nil in Hin. }
      exists (humanReadableZodError (issue :: issues)).
      split; [done|]. split.
      { cbn [fst snd]. unfold bind. cbn [trace outcome fst snd emit throw].
        rewrite app_nil_r. apply last_snoc. }
      intros c Hc. destruct (Hlisted c Hc) as (name & Hname & Hin).
      exists (map issueLine (issue :: issues)),
        (name +:+ " is required in production mode.").
      split; [done|]. rewrite Hname, <- issueLine_required.
      apply in_map. by apply list_elem_of_In.
Qed.

Lemma invalid_environment_reports_every_violation_witness :
  ∃ message,
    outcome (validateEnv {[ "NODE_ENV" := "production" ]})
    = Throw (Error message)
    ∧ listsConstraint message OwnerRequired
    ∧ listsConstraint message RepositoryRequired.
Proof.
  destruct (invalid_environment_reports_every_violation
              {[ "NODE_ENV" := "production" ]}) as (message & Hrun & _ & Hall).
  - exists OwnerRequired. split; [reflexivity | left; reflexivity].
  - exists message. split; [exact Hrun|]. split; apply Hall.
    + split; [reflexivity | left; reflexivity].
    + split; [reflexivity | left; reflexivity].
Defined.

(** * Further properties *)

(** ** The shape of a remote run *)

Section Runs.
Context `{RT : Runtime}.
Variable env : Env.
Hypothesis owner_set : truthy env.(GITHUB_OWNER) = true.
Hypothesis repo_set : truthy env.(GITHUB_REPO) = true.

Lemma reportAndRethrow_eq e : reportAndRethrow e = ([reportOf e], Throw e).
Proof. by destruct e. Qed.

Lemma logRateLimitInfo_eta info :
  logRateLimitInfo info = (trace (logRateLimitInfo info), Ok tt).
Proof. by destruct info. Qed.

Lemma run_request_rejected e :
  fetch 0 (apiUrl env) (getGitHubHeaders env) = Throw e →
  getGitHubFiles env
  = ([Fetch (apiUrl env) (getGitHubHeaders env); reportOf e], Throw e).
Proof.
  intros Hf. unfold getGitHubFiles, request.
  rewrite owner_set, repo_set. cbn [negb orb].
  rewrite bind_assoc, try_catch_emit, bind_ret_l, Hf.
  unfold await, lift, bind, try_catch. by rewrite reportAndRethrow_eq.
Qed.

Lemma afterResponse_not_ok_run response :
  ok response = false →
  afterResponse env response
  = (trace (logRateLimitInfo
              (parseRateLimitHeaders response.(response_headers)))
     ++ [reportOf (listingError response)],
     Throw (listingError response)).
Proof.
  intros Hok. unfold afterResponse, listingError, rejectResponse.
  rewrite Hok, logRateLimitInfo_eta. cbn [negb].
  destruct (parseRateLimitHeaders _) as [info|].
  - destruct (strict_eq _ _); unfold bind, try_catch, throw, ret;
      cbn [trace outcome fst snd]; by rewrite reportAndRethrow_eq, ?app_nil_r.
  - unfold bind, try_catch, throw, ret; cbn [trace outcome fst snd].
    by rewrite reportAndRethrow_eq, ?app_nil_r.
Qed.

Lemma afterResponse_undecodable_run response e :
  ok response = true →
  response.(json_tree) = Throw e →
  afterResponse env response
  = (trace (logRateLimitInfo
              (parseRateLimitHeaders response.(response_headers)))
     ++ [reportOf e],
     Throw e).
Proof.
  intros Hok Hjson. unfold afterResponse, processTree, await.
  rewrite Hok, Hjson, logRateLimitInfo_eta. cbn [negb].
  unfold bind, try_catch, lift, ret; cbn [trace outcome fst snd].
  by rewrite reportAndRethrow_eq, ?app_nil_r.
Qed.

Lemma run_by_kind :
  getGitHubFiles env =
  match runKind env with
  | RequestRejected e =>
      ([Fetch (apiUrl env) (getGitHubHeaders env); reportOf e], Throw e)
  | ListingRefused response =>
      (Fetch (apiUrl env) (getGitHubHeaders env)
         :: trace (logRateLimitInfo
                     (parseRateLimitHeaders response.(response_headers)))
         ++ [reportOf (listingError response)],
       Throw (listingError response))
  | ListingUndecodable response e =>
      (Fetch (apiUrl env) (getGitHubHeaders env)
         :: trace (logRateLimitInfo
                     (parseRateLimitHeaders response.(response_headers)))
         ++ [reportOf e],
       Throw e)
  | ListingRead response data =>
      (Fetch (apiUrl env) (getGitHubHeaders env)
         :: trace (logRateLimitInfo
                     (parseRateLimitHeaders response.(response_headers)))
         ++ map (λ file, Fetch (fileUrl env file) (getGitHubHeaders env))
              (contentFilesOf env data)
         ++ flat_map trace (map (fileCallback env) (attempts env data)),
       Ok (omap (fileValue env) (attempts env data)))
  end.
Proof.
  unfold runKind.
  destruct (fetch 0 _ _) as [response|e] eqn:Hf;
    [|by apply run_request_rejected].
  rewrite (getGitHubFiles_response env response owner_set repo_set Hf).
  destruct (ok response) eqn:Hok.
  - destruct (json_tree response) as [data|e] eqn:Hjson.
    + by rewrite (afterResponse_ok env response data Hok Hjson).
    + by rewrite (afterResponse_undecodable_run response e Hok Hjson).
  - by rewrite (afterResponse_not_ok_run response Hok).
Qed.

End Runs.

Section RunFacts.
Context `{RT : Runtime}.
Variable env : Env.

Lemma unconfigured_run :
  truthy env.(GITHUB_OWNER) = false ∨ truthy env.(GITHUB_REPO) = false →
  getGitHubFiles env = ([], Throw (Error "GitHub configuration is missing")).
Proof.
  unfold getGitHubFiles. by intros [-> | ->]; rewrite ?orb_true_r.
Qed.

Lemma configured_or_not :
  (truthy env.(GITHUB_OWNER) = true ∧ truthy env.(GITHUB_REPO) = true)
  ∨ (truthy env.(GITHUB_OWNER) = false ∨ truthy env.(GITHUB_REPO) = false).
Proof. destruct (truthy _), (truthy _); auto. Qed.

Lemma errorLines_log info :
  List.filter isErrorLine (trace (logRateLimitInfo info)) = [].
Proof. by destruct info. Qed.

Lemma reportOf_isErrorLine e : isErrorLine (reportOf e) = true.
Proof. by destruct e. Qed.

Lemma requestInits_app t1 t2 :
  requestInits (t1 ++ t2) = requestInits t1 ++ requestInits t2.
Proof. unfold requestInits. by rewrite flat_map_app. Qed.

Lemma requestInits_log info : requestInits (trace (logRateLimitInfo info)) = [].
Proof. by destruct info. Qed.

Lemma requestInits_report e : requestInits [reportOf e] = [].
Proof. by destruct e. Qed.

Lemma requestedUrls_report e : requestedUrls [reportOf e] = [].
Proof. by destruct e. Qed.

Lemma requestInits_fetches init files :
  requestInits (map (λ file, Fetch (fileUrl env file) init) files)
  = map (λ _, init) files.
Proof. induction files as [|f files IH]; simpl; [done|]. by rewrite IH. Qed.

Lemma requestInits_callbacks l :
  requestInits (flat_map trace (map (fileCallback env) l)) = [].
Proof.
  induction l as [|s l IH]; [done|].
  cbn [map flat_map]. rewrite requestInits_app, IH, fileCallback_trace.
  by destruct (httpFailed s).
Qed.

End RunFacts.

(** X1. A listing that cannot be read ends the run after its one request:
    when the request is rejected, or answered with a status that is not a
    success, or answered with a body that does not decode, no file is
    requested; a rejection and a decoding error are rethrown as they
    are. *)
Theorem failed_listing_stops_the_run `{RT : Runtime} (env : Env) :
  truthy env.(GITHUB_OWNER) = true →
  truthy env.(GITHUB_REPO) = true →
  (∀ e, fetch 0 (apiUrl env) (getGitHubHeaders env) = Throw e →
     requestedUrls (trace (getGitHubFiles env)) = [apiUrl env]
     ∧ outcome (getGitHubFiles env) = Throw e)
  ∧ (∀ response,
       fetch 0 (apiUrl env) (getGitHubHeaders env) = Ok response →
       ok response = false →
       requestedUrls (trace (getGitHubFiles env)) = [apiUrl env]
       ∧ outcome (getGitHubFiles env) = Throw (listingError response))
  ∧ (∀ response e,
       fetch 0 (apiUrl env) (getGitHubHeaders env) = Ok response →
       ok response = true →
       response.(json_tree) = Throw e →
       requestedUrls (trace (getGitHubFiles env)) = [apiUrl env]
       ∧ outcome (getGitHubFiles env) = Throw e).
Proof.
  intros Ho Hr. rewrite (run_by_kind env Ho Hr). unfold runKind.
  split; [|split].
  - intros e ->. cbn [trace outcome fst snd].
    change (requestedUrls (Fetch ?u ?i :: ?t)) with (u :: requestedUrls t).
    by rewrite requestedUrls_report.
  - intros response -> ->. cbn [trace outcome fst snd].
    change (requestedUrls (Fetch ?u ?i :: ?t)) with (u :: requestedUrls t).
    by rewrite requestedUrls_app, requestedUrls_log, requestedUrls_report.
  - intros response e -> -> ->. cbn [trace outcome fst snd].
    change (requestedUrls (Fetch ?u ?i :: ?t)) with (u :: requestedUrls t).
    by rewrite requestedUrls_app, requestedUrls_log, requestedUrls_report.
Qed.

Lemma failed_listing_stops_the_run_witness :
  requestedUrls
    (trace (getGitHubFiles (RT := Sample.runtime Scenario.offline)
              Sample.prodEnv))
  = [apiUrl Sample.prodEnv]
  ∧ outcome (getGitHubFiles (RT := Sample.runtime Scenario.offline)
               Sample.prodEnv)
    = Throw Scenario.unreachable.
Proof.
  exact (proj1 (failed_listing_stops_the_run
                  (RT := Sample.runtime Scenario.offline) Sample.prodEnv
                  eq_refl eq_refl)
           Scenario.unreachable eq_refl).
Defined.

(** X2. Whenever a configured run throws, exactly one line was written
    with [console.error]: the report of the thrown error, and it is the
    last event of the run. *)
Theorem thrown_error_is_reported_once `{RT : Runtime} (env : Env) (e : error) :
  truthy env.(GITHUB_OWNER) = true →
  truthy env.(GITHUB_REPO) = true →
  outcome (getGitHubFiles env) = Throw e →
  List.filter isErrorLine (trace (getGitHubFiles env)) = [reportOf e]
  ∧ last (trace (getGitHubFiles env)) = Some (reportOf e).
Proof.
  intros Ho Hr. rewrite (run_by_kind env Ho Hr).
  destruct (runKind env) as [e'|response|response e'|response data];
    cbn [trace outcome fst snd]; intros [= <-].
  - split; [|done]. cbn [List.filter isErrorLine].
    by rewrite reportOf_isErrorLine.
  - split.
    + cbn [List.filter isErrorLine]. rewrite List.filter_app, errorLines_log.
      cbn [List.filter app]. by rewrite reportOf_isErrorLine.
    + by rewrite app_comm_cons, last_snoc.
  - split.
    + cbn [List.filter isErrorLine]. rewrite List.filter_app, errorLines_log.
      cbn [List.filter app]. by rewrite reportOf_isErrorLine.
    + by rewrite app_comm_cons, last_snoc.
Qed.

Lemma thrown_error_is_reported_once_witness :
  List.filter isErrorLine
    (trace (getGitHubFiles
              (RT := Sample.runtime (Sample.always Scenario.garbled))
              Sample.prodEnv))
  = [ConsoleErrorWith "Error fetching files from GitHub:"
       (HostError "SyntaxError" "Unexpected end of JSON input")].
Proof.
  exact (proj1 (thrown_error_is_reported_once
                  (RT := Sample.runtime (Sample.always Scenario.garbled))
                  Sample.prodEnv
                  (HostError "SyntaxError" "Unexpected end of JSON input")
                  eq_refl eq_refl eq_refl)).
Defined.

(** X3. A refused listing with an exhausted quota is thrown as a
    rate-limit error whose status code is 403 whatever the status of the
    response was, and it is reported with the rate-limit line, not with
    the API-error line, although it is an API error too. *)
Theorem exhausted_quota_is_reported_as_403
    `{RT : Runtime} (env : Env) (response : Response)
    (info : GitHubRateLimitInfo) :
  truthy env.(GITHUB_OWNER) = true →
  truthy env.(GITHUB_REPO) = true →
  fetch 0 (apiUrl env) (getGitHubHeaders env) = Ok response →
  ok response = false →
  parseRateLimitHeaders response.(response_headers) = Some info →
  info.(remaining) = Num 0 →
  ∃ message,
    outcome (getGitHubFiles env) = Throw (GitHubRateLimitError message 403 info)
    ∧ last (trace (getGitHubFiles env))
      = Some (ConsoleError ("Rate limit exceeded. Reset at " +:+
                            toLocaleString info.(reset))).
Proof.
  intros Ho Hr Hf Hok Hparse Hzero.
  rewrite (run_by_kind env Ho Hr). unfold runKind. rewrite Hf, Hok.
  cbn [trace outcome fst snd]. unfold listingError.
  rewrite Hparse, (proj2 (strict_eq_zero _) Hzero).
  eexists. split; [reflexivity|].
  by rewrite app_comm_cons, last_snoc.
Qed.

Lemma exhausted_quota_is_reported_as_403_witness :
  ∃ message,
    outcome (getGitHubFiles
               (RT := Sample.runtime (Sample.always Scenario.tooManyRequests))
               Sample.prodEnv)
    = Throw (GitHubRateLimitError message 403
               {| limit := Num 60; remaining := Num 0;
                  reset := {| getTime := Num 1893456000000 |};
                  used := Num 60 |})
    ∧ last (trace (getGitHubFiles
                     (RT := Sample.runtime
                              (Sample.always Scenario.tooManyRequests))
                     Sample.prodEnv))
      = Some (ConsoleError "Rate limit exceeded. Reset at t=1893456000000").
Proof.
  exact (exhausted_quota_is_reported_as_403
           (RT := Sample.runtime (Sample.always Scenario.tooManyRequests))
           Sample.prodEnv Scenario.tooManyRequests
           {| limit := Num 60; remaining := Num 0;
              reset := {| getTime := Num 1893456000000 |};
              used := Num 60 |}
           eq_refl eq_refl eq_refl eq_refl eq_refl eq_refl).
Defined.

(** X4. Every request of a run, the listing and each file, is sent with
    the same headers.  They always hold the [Accept] field, and they hold
    an [Authorization] field exactly when a non-empty token is configured,
    with the value [token <token>]. *)
Theorem every_request_carries_the_configured_headers
    `{RT : Runtime} (env : Env) :
  Forall (λ init, init = getGitHubHeaders env)
    (requestInits (trace (getGitHubFiles env)))
  ∧ ("Accept", "application/vnd.github.v3+json") ∈ getGitHubHeaders env
  ∧ (∀ value,
       ("Authorization", value) ∈ getGitHubHeaders env ↔
       ∃ token, env.(GITHUB_TOKEN) = Some token ∧ token ≠ ""
                ∧ value = "token " +:+ token).
Proof.
  split; [|split].
  - destruct (configured_or_not env) as [[Ho Hr]|Hmissing].
    + rewrite (run_by_kind env Ho Hr).
      destruct (runKind env) as [e|response|response e|response data];
        cbn [trace fst];
        change (requestInits (Fetch ?u ?i :: ?t)) with (i :: requestInits t);
        rewrite ?requestInits_app, ?requestInits_log, ?requestInits_report,
          ?requestInits_fetches, ?requestInits_callbacks, ?app_nil_r;
        constructor; try done.
      by apply Forall_map, Forall_true.
    + by rewrite (unconfigured_run env Hmissing).
  - unfold getGitHubHeaders. destruct (truthy _); set_solver.
  - intros value. unfold getGitHubHeaders.
    destruct (truthy env.(GITHUB_TOKEN)) eqn:Htoken.
    + apply truthy_Some in Htoken as (token & Heq & Hne). rewrite Heq.
      rewrite elem_of_app, !list_elem_of_singleton. cbn [tpl]. split.
      * intros [[=]|[= ->]]. by exists token.
      * intros (token' & [= <-] & _ & ->). by right.
    + rewrite list_elem_of_singleton. split; [by intros [=]|].
      intros (token & Heq & Hne & _).
      assert (truthy env.(GITHUB_TOKEN) = true) as Htrue
        by (apply truthy_Some; eauto).
      congruence.
Qed.

(** ** Selection and provenance of the remote files *)

Lemma prefix_iff_append (p s : string) :
  String.prefix p s = true ↔ ∃ suffix, s = p +:+ suffix.
Proof.
  revert s. induction p as [|a p IH]; intros s.
  - split; [intros _; by exists s | by destruct s].
  - destruct s as [|b s]; cbn [String.prefix].
    + split; [done | by intros (suffix & [=])].
    + destruct (ascii_dec a b) as [<-|Hne].
      * rewrite IH. split.
        -- intros (suffix & ->). by exists suffix.
        -- intros (suffix & [= ->]). by exists suffix.
      * split; [done|]. intros (suffix & [= ? _]). done.
Qed.

Lemma pendingFetches_elem `{RT : Runtime} (env : Env) n init files started :
  started ∈ pendingFetches env n init files →
  started.1 ∈ files
  ∧ ∃ k, started.2 = fetch k (fileUrl env started.1) init.
Proof.
  revert n. induction files as [|f files IH]; intros n Hin; cbn in Hin.
  - by apply elem_of_nil in Hin.
  - apply elem_of_cons in Hin as [->|Hin].
    + split; [by left | by exists n].
    + destruct (IH _ Hin) as [Hf Hk]. split; [by right | done].
Qed.

(** X5. An entry is selected exactly when it is a blob whose path is the
    content path followed by any string at all, so the entries of a
    sibling directory whose name merely starts like the content directory
    are selected too; and in a run that reads the listing the raw file of
    every such entry is requested. *)
Theorem selection_is_by_string_prefix
    `{RT : Runtime} (env : Env) (response : Response)
    (data : GitHubTreeResponse) :
  truthy env.(GITHUB_OWNER) = true →
  truthy env.(GITHUB_REPO) = true →
  fetch 0 (apiUrl env) (getGitHubHeaders env) = Ok response →
  ok response = true →
  response.(json_tree) = Ok data →
  (∀ item,
     isContentFile env item = true ↔
     item.(item_type) = blob
     ∧ ∃ suffix, item.(item_path) = env.(GITHUB_CONTENT_PATH) +:+ suffix)
  ∧ (∀ item suffix,
       item ∈ data.(tree_items) →
       item.(item_type) = blob →
       item.(item_path) = env.(GITHUB_CONTENT_PATH) +:+ suffix →
       fileUrl env item ∈ requestedUrls (trace (getGitHubFiles env))).
Proof.
  intros Ho Hr Hf Hok Hdata.
  assert (∀ item,
    isContentFile env item = true ↔
    item.(item_type) = blob
    ∧ ∃ suffix, item.(item_path) = env.(GITHUB_CONTENT_PATH) +:+ suffix)
    as Hsel.
  { intros item. by rewrite isContentFile_spec, prefix_iff_append. }
  split; [done|].
  intros item suffix Hin Hblob Hpath.
  rewrite (getGitHubFiles_requests env response data Ho Hr Hf Hok Hdata).
  apply elem_of_cons. right. apply list_elem_of_fmap_2.
  unfold contentFilesOf. apply list_elem_of_In, List.filter_In.
  split; [by apply list_elem_of_In|]. apply Hsel. eauto.
Qed.

Lemma selection_is_by_string_prefix_witness :
  "https://raw.githubusercontent.com/acme/handbook/main/content/docs-old/index.md"
  ∈ requestedUrls
      (trace (getGitHubFiles (RT := Sample.runtime Scenario.siblingNetwork)
                Sample.prodEnv)).
Proof.
  refine (proj2 (selection_is_by_string_prefix
            (RT := Sample.runtime Scenario.siblingNetwork) Sample.prodEnv
            {| status := 200; statusText := "OK"; response_headers := ∅;
               text := Ok ""; json_tree := Ok Scenario.siblingListing |}
            Scenario.siblingListing eq_refl eq_refl eq_refl eq_refl eq_refl)
          (Sample.entry "content/docs-old/index.md" blob) "-old/index.md"
          _ eq_refl eq_refl).
  apply (bool_decide_unpack _). reflexivity.
Defined.

Section Provenance.
Context `{RT : Runtime}.
Variable env : Env.

Lemma fileValue_inv item pending file :
  fileValue env (item, pending) = Some file →
  ∃ response content,
    pending = Ok response ∧ ok response = true
    ∧ response.(text) = Ok content
    ∧ ((isMarkdown (extname item.(item_path)) = true
        ∧ ∃ parsed,
            matter content = Ok parsed
            ∧ file = Page (relative env.(GITHUB_CONTENT_PATH) item.(item_path))
                       (<["content" := JStr parsed.(matter_content)]>
                          parsed.(matter_data)))
       ∨ (isMarkdown (extname item.(item_path)) = false
          ∧ extname item.(item_path) = ".json"
          ∧ ∃ parsed,
              JSON_parse content = Ok parsed
              ∧ file = Meta (relative env.(GITHUB_CONTENT_PATH)
                               item.(item_path)) parsed)).
Proof.
  unfold fileValue, fileCallback, await.
  destruct pending as [response|e]; [|done].
  rewrite bind_lift_Ok. destruct (ok response) eqn:Hok; cbn [negb]; [|done].
  destruct (text response) as [content|e] eqn:Htext; [|done].
  rewrite bind_lift_Ok.
  change (String.eqb ?e ".mdx" || String.eqb ?e ".md") with (isMarkdown e).
  destruct (isMarkdown _) eqn:Hmd.
  - destruct (matter content) as [parsed|e] eqn:Hparsed; [|done].
    rewrite bind_lift_Ok. intros [= <-].
    exists response, content. repeat split; try done. left. eauto.
  - destruct (String.eqb_spec (extname item.(item_path)) ".json")
      as [Hjson|_]; [|done].
    destruct (JSON_parse content) as [parsed|e] eqn:Hparsed; [|done].
    rewrite bind_lift_Ok. intros [= <-].
    exists response, content. repeat split; try done. right. eauto.
Qed.

Lemma fileValue_path started file :
  fileValue env started = Some file →
  vf_path file = relative env.(GITHUB_CONTENT_PATH) started.1.(item_path).
Proof.
  destruct started as [item pending]. intros Hv.
  apply fileValue_inv in Hv
    as (? & ? & _ & _ & _ & [(_ & ? & _ & ->)|(_ & _ & ? & _ & ->)]); done.
Qed.

Lemma produced_paths_sublist n init files :
  map vf_path (omap (fileValue env) (pendingFetches env n init files))
  `sublist_of` map (λ item, relative env.(GITHUB_CONTENT_PATH) item.(item_path))
              files.
Proof.
  revert n. induction files as [|f files IH]; intros n; [done|].
  cbn [pendingFetches omap list_omap map].
  destruct (fileValue env (f, _)) as [file|] eqn:Hv.
  - cbn [map]. rewrite (fileValue_path _ _ Hv). by apply sublist_skip.
  - by apply sublist_cons.
Qed.

Lemma filter_sublist {A} (f : A → bool) (l : list A) :
  List.filter f l `sublist_of` l.
Proof.
  induction l as [|x l IH]; [done|]. cbn.
  destruct (f x); [by apply sublist_skip | by apply sublist_cons].
Qed.

Lemma errorLines_callbacks l :
  List.filter isErrorLine (flat_map trace (map (fileCallback env) l))
  = map (λ started,
           ConsoleError ("Failed to fetch file: " +:+ started.1.(item_path)))
      (List.filter httpFailed l).
Proof.
  induction l as [|s l IH]; [done|].
  cbn [map flat_map List.filter]. rewrite List.filter_app, IH.
  rewrite fileCallback_trace. by destruct (httpFailed s).
Qed.

Lemma errorLines_fetches init files :
  List.filter isErrorLine
    (map (λ file, Fetch (fileUrl env file) init) files) = [].
Proof. by induction files. Qed.

End Provenance.

(** X6. The virtual files of a remote run come in the order of the
    listing: their paths are, in order, paths of selected entries, and the
    selected entries are in the order in which the listing has them. *)
Theorem result_follows_listing_order
    `{RT : Runtime} (env : Env) (response : Response)
    (data : GitHubTreeResponse) :
  truthy env.(GITHUB_OWNER) = true →
  truthy env.(GITHUB_REPO) = true →
  fetch 0 (apiUrl env) (getGitHubHeaders env) = Ok response →
  ok response = true →
  response.(json_tree) = Ok data →
  ∃ files,
    outcome (getGitHubFiles env) = Ok files
    ∧ map vf_path files
      `sublist_of` map (λ item, relative env.(GITHUB_CONTENT_PATH)
                               item.(item_path))
                  (contentFilesOf env data)
    ∧ contentFilesOf env data `sublist_of` data.(tree_items).
Proof.
  intros Ho Hr Hf Hok Hdata.
  rewrite (getGitHubFiles_ok env response data Ho Hr Hf Hok Hdata).
  eexists. split; [reflexivity|]. split.
  - apply produced_paths_sublist.
  - apply filter_sublist.
Qed.

Lemma result_follows_listing_order_witness :
  ∃ files,
    outcome (getGitHubFiles (RT := Sample.runtime Sample.repository)
               Sample.prodEnv) = Ok files
    ∧ map vf_path files
      `sublist_of` ["index.md"; "logo.png"; "gone.md"; "meta.json";
                 "guide/shadow.mdx"].
Proof.
  destruct (result_follows_listing_order
    (RT := Sample.runtime Sample.repository) Sample.prodEnv
    {| status := 200; statusText := "OK";
       response_headers := delete "x-ratelimit-used" (Sample.quota "59" "1");
       text := Ok ""; json_tree := Ok Sample.listing |}
    Sample.listing eq_refl eq_refl eq_refl eq_refl eq_refl)
    as (files & Hrun & Hpaths & _).
  exists files. split; [exact Hrun | exact Hpaths].
Defined.

(** X7. Every virtual file of a remote run is accounted for: it comes
    from a blob of the listing under the content path whose raw file was
    requested and answered with a success status and a readable body; its
    path is the entry's path relative to the content path; a page comes
    from an [.md] or [.mdx] entry and holds the parsed front matter with
    the body under ["content"]; a metadata file comes from a [.json]
    entry and holds the parsed body. *)
Theorem result_files_are_accounted_for
    `{RT : Runtime} (env : Env) (response : Response)
    (data : GitHubTreeResponse) (file : VirtualFile) :
  truthy env.(GITHUB_OWNER) = true →
  truthy env.(GITHUB_REPO) = true →
  fetch 0 (apiUrl env) (getGitHubHeaders env) = Ok response →
  ok response = true →
  response.(json_tree) = Ok data →
  (∃ files, outcome (getGitHubFiles env) = Ok files ∧ file ∈ files) →
  ∃ item k fileResponse content,
    item ∈ data.(tree_items)
    ∧ item.(item_type) = blob
    ∧ String.prefix env.(GITHUB_CONTENT_PATH) item.(item_path) = true
    ∧ fetch k (fileUrl env item) (getGitHubHeaders env) = Ok fileResponse
    ∧ ok fileResponse = true
    ∧ fileResponse.(text) = Ok content
    ∧ vf_path file = relative env.(GITHUB_CONTENT_PATH) item.(item_path)
    ∧ match file with
      | Page _ pageData =>
          isMarkdown (extname item.(item_path)) = true
          ∧ ∃ parsed,
              matter content = Ok parsed
              ∧ pageData = <["content" := JStr parsed.(matter_content)]>
                             parsed.(matter_data)
      | Meta _ metaData =>
          isMarkdown (extname item.(item_path)) = false
          ∧ extname item.(item_path) = ".json"
          ∧ JSON_parse content = Ok metaData
      end.
Proof.
  intros Ho Hr Hf Hok Hdata (files & Hrun & Hin).
  rewrite (getGitHubFiles_ok env response data Ho Hr Hf Hok Hdata) in Hrun.
  injection Hrun as <-.
  apply list_elem_of_omap in Hin as ([item pending] & Hstarted & Hvalue).
  apply pendingFetches_elem in Hstarted as [Hitem [k Hk]].
  cbn [fst snd] in *.
  apply list_elem_of_In, List.filter_In in Hitem as [Hlisted Hsel].
  apply isContentFile_spec in Hsel as [Hblob Hprefix].
  pose proof (fileValue_path env _ _ Hvalue) as Hpath.
  apply fileValue_inv in Hvalue
    as (fileResponse & content & -> & Hfok & Htext & Hkind).
  exists item, k, fileResponse, content.
  split; [by apply list_elem_of_In|]. do 6 (split; [done|]).
  destruct Hkind as [(Hmd & parsed & Hparsed & ->)
                    |(Hmd & Hjson & parsed & Hparsed & ->)].
  - split; [done|]. by exists parsed.
  - done.
Qed.

Lemma result_files_are_accounted_for_witness :
  ∃ item k fileResponse,
    item ∈ Sample.listing.(tree_items)
    ∧ fetch (Runtime := Sample.runtime Sample.repository) k
        (fileUrl Sample.prodEnv item) (getGitHubHeaders Sample.prodEnv)
      = Ok fileResponse
    ∧ extname (Runtime := Sample.runtime Sample.repository)
        item.(item_path) = ".json".
Proof.
  destruct (result_files_are_accounted_for
    (RT := Sample.runtime Sample.repository) Sample.prodEnv
    {| status := 200; statusText := "OK";
       response_headers := delete "x-ratelimit-used" (Sample.quota "59" "1");
       text := Ok ""; json_tree := Ok Sample.listing |}
    Sample.listing (Meta "meta.json" (JArr []))
    eq_refl eq_refl eq_refl eq_refl eq_refl)
    as (item & k & fileResponse & content & Hitem & _ & _ & Hk & _ & _ & _
        & _ & Hjson & _).
  - eexists. split; [reflexivity|]. vm_compute.
    apply elem_of_cons. right. apply elem_of_cons. by left.
  - exists item, k, fileResponse. split; [exact Hitem|].
    split; [exact Hk | exact Hjson].
Defined.

(** X8. In a run that reads the listing, the lines written with
    [console.error] are the "Failed to fetch file" lines of the attempts
    answered with a non-success status, one each: a rejected request, an
    unreadable body, an unknown extension or a parse error leaves no
    line. *)
Theorem only_failed_fetches_are_logged
    `{RT : Runtime} (env : Env) (response : Response)
    (data : GitHubTreeResponse) :
  truthy env.(GITHUB_OWNER) = true →
  truthy env.(GITHUB_REPO) = true →
  fetch 0 (apiUrl env) (getGitHubHeaders env) = Ok response →
  ok response = true →
  response.(json_tree) = Ok data →
  List.filter isErrorLine (trace (getGitHubFiles env))
  ≡ₚ map (λ started,
            ConsoleError ("Failed to fetch file: " +:+
                          started.1.(item_path)))
       (List.filter httpFailed (attempts env data)).
Proof.
  intros Ho Hr Hf Hok Hdata.
  rewrite (getGitHubFiles_ok env response data Ho Hr Hf Hok Hdata).
  cbn [trace fst List.filter isErrorLine].
  rewrite !List.filter_app, errorLines_log, errorLines_fetches.
  by rewrite errorLines_callbacks.
Qed.

Lemma only_failed_fetches_are_logged_witness :
  List.filter isErrorLine
    (trace (getGitHubFiles (RT := Sample.runtime Sample.repository)
              Sample.prodEnv))
  ≡ₚ [ConsoleError "Failed to fetch file: content/docs/gone.md"].
Proof.
  exact (only_failed_fetches_are_logged
    (RT := Sample.runtime Sample.repository) Sample.prodEnv
    {| status := 200; statusText := "OK";
       response_headers := delete "x-ratelimit-used" (Sample.quota "59" "1");
       text := Ok ""; json_tree := Ok Sample.listing |}
    Sample.listing eq_refl eq_refl eq_refl eq_refl eq_refl).
Defined.

(** ** Classification of the other files *)

Lemma bind_ret_r {A} (m : Comp A) : bind m ret = m.
Proof.
  destruct m as [t [a|e]]; [|done]. unfold bind, ret.
  cbn [trace outcome fst snd]. by rewrite app_nil_r.
Qed.

Section Classification.
Context `{RT : Runtime}.

Lemma localFile_by_kind file content :
  localFile (file, content) =
  if isMarkdown (extname file) then
    let* parsed := lift (matter content) in
    ret [Page (relative "content/docs" (join cwd file))
           (<["content" := JStr parsed.(matter_content)]>
              parsed.(matter_data))]
  else if String.eqb (extname file) ".json" then
    let* parsed := lift (JSON_parse content) in
    ret [Meta (relative "content/docs" (join cwd file)) parsed]
  else ret [].
Proof. reflexivity. Qed.

Lemma fileCallback_by_kind env item response content :
  ok response = true →
  response.(text) = Ok content →
  fileCallback env (item, Ok response) =
  if isMarkdown (extname item.(item_path)) then
    let* parsed := lift (matter content) in
    ret (Some (Page (relative env.(GITHUB_CONTENT_PATH) item.(item_path))
                 (<["content" := JStr parsed.(matter_content)]>
                    parsed.(matter_data))))
  else if String.eqb (extname item.(item_path)) ".json" then
    let* parsed := lift (JSON_parse content) in
    ret (Some (Meta (relative env.(GITHUB_CONTENT_PATH) item.(item_path))
                 parsed))
  else ret None.
Proof.
  intros Hok Htext. unfold fileCallback, await.
  by rewrite bind_lift_Ok, Hok, Htext, bind_lift_Ok.
Qed.

Lemma recognised_false ext :
  recognised ext = false ↔
  isMarkdown ext = false ∧ String.eqb ext ".json" = false.
Proof. unfold recognised. by rewrite orb_false_iff. Qed.

Lemma flatMapM_skip {B} (f : string * string → Comp (list B)) before entry
    after :
  f entry = ret [] →
  flatMapM f (before ++ entry :: after) = flatMapM f (before ++ after).
Proof.
  intros Hentry. induction before as [|b before IH].
  - cbn [app flatMapM]. rewrite Hentry, bind_ret_l. cbn [app].
    apply bind_ret_r.
  - cbn [app flatMapM]. by rewrite IH.
Qed.

Lemma flatMapM_abort {A B} (f : A → Comp (list B)) before entry after e :
  Forall (λ b, ∃ ys, outcome (f b) = Ok ys) before →
  outcome (f entry) = Throw e →
  outcome (flatMapM f (before ++ entry :: after)) = Throw e.
Proof.
  intros Hbefore Hentry. induction Hbefore as [|b before [ys Hb] _ IH].
  - cbn [app flatMapM]. by rewrite outcome_bind, Hentry.
  - cbn [app flatMapM]. by rewrite outcome_bind, Hb, outcome_bind, IH.
Qed.

Lemma flatMapM_paths (l : list (string * string)) files :
  outcome (flatMapM localFile l) = Ok files →
  map vf_path files
  = map localPath (List.filter (λ entry, recognised (extname entry.1)) l).
Proof.
  revert files. induction l as [|[file content] l IH]; intros files.
  - by intros [= <-].
  - cbn [flatMapM List.filter fst]. rewrite outcome_bind.
    destruct (outcome (localFile (file, content))) as [here|e] eqn:Hhere;
      [|done].
    rewrite outcome_bind.
    destruct (outcome (flatMapM localFile l)) as [rest|e]; [|done].
    intros [= <-]. rewrite map_app, (IH rest eq_refl).
    rewrite localFile_by_kind in Hhere. unfold recognised.
    destruct (isMarkdown (extname file)); cbn [orb].
    + destruct (matter content); [|done]. rewrite bind_lift_Ok in Hhere.
      by injection Hhere as <-.
    + destruct (String.eqb (extname file) ".json").
      * destruct (JSON_parse content); [|done].
        rewrite bind_lift_Ok in Hhere. by injection Hhere as <-.
      * by injection Hhere as <-.
Qed.

End Classification.

(** X9. A file whose extension is [.json] and whose content parses
    becomes a metadata file holding the parsed value: this is what the
    local callback returns and what local acquisition lists for it, and
    what a fetched file yields and remote acquisition lists for it. *)
Theorem json_becomes_metadata
    `{RT : Runtime} (env : Env) (file content : string) (parsed : json) :
  extname file = ".json" →
  JSON_parse content = Ok parsed →
  localFile (file, content)
  = ret [Meta (relative "content/docs" (join cwd file)) parsed]
  ∧ (∀ files, outcome getLocalFiles = Ok files → (file, content) ∈ glob →
       Meta (relative "content/docs" (join cwd file)) parsed ∈ files)
  ∧ (∀ item response,
       item.(item_path) = file → ok response = true →
       response.(text) = Ok content →
       fileValue env (item, Ok response)
       = Some (Meta (relative env.(GITHUB_CONTENT_PATH) file) parsed)
       ∧ ∀ listed data,
           truthy env.(GITHUB_OWNER) = true →
           truthy env.(GITHUB_REPO) = true →
           fetch 0 (apiUrl env) (getGitHubHeaders env) = Ok listed →
           ok listed = true →
           listed.(json_tree) = Ok data →
           (item, Ok response) ∈ attempts env data →
           ∃ files,
             outcome (getGitHubFiles env) = Ok files
             ∧ Meta (relative env.(GITHUB_CONTENT_PATH) file) parsed ∈ files).
Proof.
  intros Hext Hparsed.
  assert (localFile (file, content)
          = ret [Meta (relative "content/docs" (join cwd file)) parsed])
    as Hlocal.
  { by rewrite localFile_by_kind, Hext, Hparsed, bind_lift_Ok. }
  split; [done|]. split.
  - intros files Hrun Hin.
    eapply (flatMapM_elem localFile glob (file, content)); [done..| |].
    + by rewrite Hlocal.
    + by apply list_elem_of_singleton.
  - intros item response <- Hok Htext.
    assert (fileValue env (item, Ok response)
            = Some (Meta (relative env.(GITHUB_CONTENT_PATH)
                            item.(item_path)) parsed)) as Hvalue.
    { unfold fileValue.
      by rewrite (fileCallback_by_kind env item response content Hok Htext),
        Hext, Hparsed, bind_lift_Ok. }
    split; [done|].
    intros listed data Ho Hr Hf Hlok Hdata Hin.
    rewrite (getGitHubFiles_ok env listed data Ho Hr Hf Hlok Hdata).
    eexists. split; [reflexivity|].
    apply list_elem_of_omap. by exists (item, Ok response).
Qed.

Lemma json_becomes_metadata_witness :
  localFile (RT := Sample.runtime Sample.repository)
    ("/content/docs/meta.json", "[]")
  = ret [Meta "meta.json" (JArr [])].
Proof.
  exact (proj1 (json_becomes_metadata
                  (RT := Sample.runtime Sample.repository) Sample.prodEnv
                  "/content/docs/meta.json" "[]" (JArr []) eq_refl eq_refl)).
Defined.

(** X10. A file whose extension is none of [.md], [.mdx] and [.json] is
    ignored without a trace.  Locally the callback returns nothing for it
    and the listing of a directory is the same with or without it;
    remotely a fetched file of that kind yields nothing and writes
    nothing. *)
Theorem unrecognised_files_are_ignored
    `{RT : Runtime} (env : Env) (file content : string) :
  recognised (extname file) = false →
  localFile (file, content) = ret []
  ∧ (∀ before after,
       flatMapM localFile (before ++ (file, content) :: after)
       = flatMapM localFile (before ++ after))
  ∧ (∀ item response,
       item.(item_path) = file → ok response = true →
       response.(text) = Ok content →
       fileCallback env (item, Ok response) = ret None).
Proof.
  intros Hrec. apply recognised_false in Hrec as [Hmd Hjson].
  assert (localFile (file, content) = ret []) as Hlocal.
  { by rewrite localFile_by_kind, Hmd, Hjson. }
  split; [done|]. split.
  - intros before after. by apply flatMapM_skip.
  - intros item response <- Hok Htext.
    by rewrite (fileCallback_by_kind env item response content Hok Htext),
      Hmd, Hjson.
Qed.

Lemma unrecognised_files_are_ignored_witness :
  localFile (RT := Sample.runtime Sample.repository)
    ("/content/docs/logo.png", "PNG") = ret [].
Proof.
  exact (proj1 (unrecognised_files_are_ignored
                  (RT := Sample.runtime Sample.repository) Sample.prodEnv
                  "/content/docs/logo.png" "PNG" eq_refl)).
Defined.

(** X11. Local acquisition stops at the first file that does not parse:
    when the callback throws for an entry and returned for every entry
    before it, [getLocalFiles] throws that error and writes nothing.  The
    callback throws exactly when the front-matter parser throws on an
    [.md] or [.mdx] file or the JSON parser throws on a [.json] file. *)
Theorem local_parse_failure_is_fatal
    `{RT : Runtime} (before after : list (string * string))
    (file content : string) (e : error) :
  glob = before ++ (file, content) :: after →
  Forall (λ entry, ∃ files, outcome (localFile entry) = Ok files) before →
  ((isMarkdown (extname file) = true ∧ matter content = Throw e)
   ∨ (isMarkdown (extname file) = false ∧ extname file = ".json"
      ∧ JSON_parse content = Throw e)) →
  getLocalFiles = ([], Throw e).
Proof.
  intros Hglob Hbefore Hthrows.
  assert (outcome (localFile (file, content)) = Throw e) as Hentry.
  { rewrite localFile_by_kind.
    destruct Hthrows as [[-> ->]|(-> & -> & ->)]; done. }
  rewrite (surjective_pairing getLocalFiles).
  f_equal; [apply getLocalFiles_silent|].
  unfold getLocalFiles. rewrite Hglob. by apply flatMapM_abort.
Qed.

Lemma local_parse_failure_is_fatal_witness :
  getLocalFiles (RT := Scenario.brokenRuntime)
  = ([], Throw (HostError "SyntaxError" "Unexpected token")).
Proof.
  refine (local_parse_failure_is_fatal (RT := Scenario.brokenRuntime)
            [("/content/docs/index.md", Sample.titled)]
            [("/content/docs/guide/shadow.mdx", Sample.shadowing)]
            "/content/docs/meta.json" "{oops"
            (HostError "SyntaxError" "Unexpected token") eq_refl _ _).
  - constructor; [|constructor].
    exists [Page "index.md"
              (<["content" := JStr "hello"]> {[ "title" := JStr "A" ]})].
    vm_compute. reflexivity.
  - right. repeat split; vm_compute; reflexivity.
Defined.

(** X12. When local acquisition returns, the paths of its virtual files
    are, in the order of the directory table, the paths relative to the
    content directory of the entries whose extension is [.md], [.mdx] or
    [.json]: one virtual file for each of them and none for the others. *)
Theorem local_result_paths `{RT : Runtime} (files : list VirtualFile) :
  outcome getLocalFiles = Ok files →
  map vf_path files
  = map localPath (List.filter (λ entry, recognised (extname entry.1)) glob)
  ∧ length files
    = length (List.filter (λ entry, recognised (extname entry.1)) glob).
Proof.
  intros Hrun. apply flatMapM_paths in Hrun. split; [done|].
  by rewrite <- (length_map vf_path), Hrun, length_map.
Qed.

Lemma local_result_paths_witness :
  ∃ files,
    outcome (getLocalFiles (RT := Sample.runtime Sample.repository))
    = Ok files
    ∧ map vf_path files = ["index.md"; "guide/shadow.mdx"; "meta.json"].
Proof.
  exists [Page "index.md"
            (<["content" := JStr "hello"]> {[ "title" := JStr "A" ]});
          Page "guide/shadow.mdx"
            (<["content" := JStr "from the body"]>
               {[ "content" := JStr "from the header" ]});
          Meta "meta.json" (JArr [])].
  assert (outcome (getLocalFiles (RT := Sample.runtime Sample.repository))
          = Ok [Page "index.md"
                  (<["content" := JStr "hello"]> {[ "title" := JStr "A" ]});
                Page "guide/shadow.mdx"
                  (<["content" := JStr "from the body"]>
                     {[ "content" := JStr "from the header" ]});
                Meta "meta.json" (JArr [])]) as Hrun
    by (vm_compute; reflexivity).
  split; [exact Hrun|].
  pose proof (proj1 (local_result_paths
                       (RT := Sample.runtime Sample.repository) _ Hrun))
    as Hpaths.
  vm_compute in Hpaths. vm_compute. exact Hpaths.
Defined.

(** X13. Local and remote acquisition classify alike: for the same
    extension and the same content, either both callbacks yield a virtual
    file, of the same kind and with the same data, or both yield none, or
    the parser throws, which the local callback lets through and which
    makes the remote callback reject. *)
Theorem local_and_remote_classify_alike
    `{RT : Runtime} (env : Env) (file content : string)
    (item : GitHubTreeItem) (response : Response) :
  extname item.(item_path) = extname file →
  ok response = true →
  response.(text) = Ok content →
  match outcome (localFile (file, content)),
        outcome (fileCallback env (item, Ok response)) with
  | Ok [here], Ok (Some there) => sameData here there
  | Ok [], Ok None => True
  | Throw e, Throw e' => e = e'
  | _, _ => False
  end.
Proof.
  intros Hext Hok Htext.
  rewrite localFile_by_kind,
    (fileCallback_by_kind env item response content Hok Htext), Hext.
  destruct (isMarkdown (extname file)).
  - by destruct (matter content).
  - destruct (String.eqb (extname file) ".json"); [|done].
    by destruct (JSON_parse content).
Qed.

Lemma local_and_remote_classify_alike_witness :
  match outcome (localFile (RT := Sample.runtime Sample.repository)
                   ("/content/docs/index.md", Sample.titled)),
        outcome (fileCallback (RT := Sample.runtime Sample.repository)
                   Sample.prodEnv
                   (Sample.entry "content/docs/index.md" blob,
                    Ok (Sample.file Sample.titled))) with
  | Ok [here], Ok (Some there) => sameData here there
  | Ok [], Ok None => True
  | Throw e, Throw e' => e = e'
  | _, _ => False
  end.
Proof.
  exact (local_and_remote_classify_alike
           (RT := Sample.runtime Sample.repository) Sample.prodEnv
           "/content/docs/index.md" Sample.titled
           (Sample.entry "content/docs/index.md" blob)
           (Sample.file Sample.titled) eq_refl eq_refl eq_refl).
Defined.

(** ** The environment resolver, continued *)

Lemma parseObject_mode (penv : gmap string string) mode :
  parseNodeEnv (penv !! "NODE_ENV") = inr mode →
  parseObject penv = inr (resolved penv mode).
Proof. intros Hmode. unfold parseObject. by rewrite Hmode. Qed.

Lemma validateEnv_mode_rejected (penv : gmap string string) issue :
  parseNodeEnv (penv !! "NODE_ENV") = inl issue →
  validateEnv penv
  = ([ConsoleError (issueLine issue)], Throw (Error (issueLine issue))).
Proof.
  intros Hmode. unfold validateEnv, envSchema_safeParse, parseObject.
  by rewrite Hmode.
Qed.

Lemma validateEnv_development (penv : gmap string string) :
  parseNodeEnv (penv !! "NODE_ENV") = inr development →
  validateEnv penv = ([], Ok (resolved penv development)).
Proof.
  intros Hmode. unfold validateEnv, envSchema_safeParse.
  by rewrite (parseObject_mode penv development Hmode).
Qed.

Lemma validateEnv_production (penv : gmap string string) :
  parseNodeEnv (penv !! "NODE_ENV") = inr production →
  validateEnv penv =
  let data := resolved penv production in
  let warning := if truthy (penv !! "GITHUB_TOKEN") then [] else [tokenWarning] in
  match (superRefine data).2 with
  | [] => (warning, Ok data)
  | issue :: issues =>
      (warning ++ [ConsoleError (humanReadableZodError (issue :: issues))],
       Throw (Error (humanReadableZodError (issue :: issues))))
  end.
Proof.
  intros Hmode. unfold validateEnv, envSchema_safeParse.
  rewrite (parseObject_mode penv production Hmode).
  unfold superRefine. cbn [resolved NODE_ENV GITHUB_OWNER GITHUB_REPO
    GITHUB_CONTENT_PATH GITHUB_TOKEN fst snd].
  destruct (truthy (penv !! "GITHUB_TOKEN")); cbn [negb];
    destruct (_ ++ _ ++ _) as [|issue issues]; unfold bind, emit, throw, ret;
    cbn [trace outcome fst snd]; by rewrite ?app_nil_r.
Qed.

Lemma production_issues (penv : gmap string string) :
  (superRefine (resolved penv production)).2 =
  (if truthy (penv !! "GITHUB_OWNER") then []
   else [requiredIssue "GITHUB_OWNER"])
  ++ (if truthy (penv !! "GITHUB_REPO") then []
      else [requiredIssue "GITHUB_REPO"])
  ++ (if truthy (Some (default "content/docs"
                         (penv !! "GITHUB_CONTENT_PATH"))) then []
      else [requiredIssue "GITHUB_CONTENT_PATH"]).
Proof.
  unfold superRefine. cbn [resolved NODE_ENV GITHUB_OWNER GITHUB_REPO
    GITHUB_CONTENT_PATH GITHUB_TOKEN fst snd].
  by destruct (truthy (penv !! "GITHUB_OWNER")),
    (truthy (penv !! "GITHUB_REPO")), (truthy (Some _)).
Qed.

Lemma path_falsy (path : string) : path = "" ↔ truthy (Some path) = false.
Proof. cbn. by rewrite negb_false_iff, String.eqb_eq. Qed.

Lemma mode_cases (penv : gmap string string) :
  (∃ issue, parseNodeEnv (penv !! "NODE_ENV") = inl issue
            ∧ issue.(issue_path) = ["NODE_ENV"]
            ∧ violates penv ModeIsValid)
  ∨ (∃ mode, parseNodeEnv (penv !! "NODE_ENV") = inr mode
             ∧ penv !! "NODE_ENV" = Some (Mode_to_string mode)).
Proof.
  destruct (parseNodeEnv (penv !! "NODE_ENV")) as [issue|mode] eqn:Hmode.
  - left. exists issue. split; [done|]. split.
    + unfold parseNodeEnv in Hmode.
      destruct (penv !! "NODE_ENV") as [s|]; [|by injection Hmode as <-].
      destruct (String.eqb s "development"); [done|].
      destruct (String.eqb s "production"); [done|].
      by injection Hmode as <-.
    + split; intros Heq; rewrite Heq in Hmode; done.
  - right. exists mode. split; [done|]. by apply parseNodeEnv_mode.
Qed.

Lemma violation_in_production (penv : gmap string string) :
  penv !! "NODE_ENV" = Some "production" →
  (¬ violates penv ModeIsValid)
  ∧ (violates penv OwnerRequired ↔ truthy (penv !! "GITHUB_OWNER") = false)
  ∧ (violates penv RepositoryRequired ↔
     truthy (penv !! "GITHUB_REPO") = false)
  ∧ (violates penv ContentPathRequired ↔
     truthy (Some (default "content/docs" (penv !! "GITHUB_CONTENT_PATH")))
     = false).
Proof.
  intros Hprod. unfold violates, inProduction.
  rewrite !missing_falsy, path_falsy. split; [by intros [_ ?]|].
  repeat split; try tauto; by intros [_ ?].
Qed.

Lemma no_violation_in_development (penv : gmap string string) c :
  penv !! "NODE_ENV" = Some "development" → ¬ violates penv c.
Proof.
  intros Hdev. destruct c; unfold violates, inProduction; rewrite Hdev;
    intros [H1 H2]; congruence.
Qed.

(** X14. The resolver accepts an environment exactly when it violates no
    constraint, and what it returns is then the environment's own
    variables with the mode read from [NODE_ENV], the content path
    defaulting to ["content/docs"] and the branch to ["main"]. *)
Theorem environment_accepted_iff_no_violation (penv : gmap string string) :
  (¬ ∃ c, violates penv c) ↔
  ∃ mode, penv !! "NODE_ENV" = Some (Mode_to_string mode)
          ∧ outcome (validateEnv penv) = Ok (resolved penv mode).
Proof.
  destruct (mode_cases penv) as [(issue & Hmode & _ & Hviol)
                                |(mode & Hmode & Henv)].
  - split.
    + intros Hnone. destruct Hnone. by exists ModeIsValid.
    + intros (mode & Henv & _). apply parseNodeEnv_mode in Henv. congruence.
  - assert (∀ mode', penv !! "NODE_ENV" = Some (Mode_to_string mode') →
              mode' = mode) as Hsame.
    { intros mode' Henv'. rewrite Henv in Henv'.
      by destruct mode, mode'. }
    destruct mode.
    + split.
      * intros _. exists development. split; [done|].
        by rewrite (validateEnv_development penv Hmode).
      * intros _ (c & Hc). by apply (no_violation_in_development penv c).
    + pose proof (violation_in_production penv Henv)
        as (Hm & Howner & Hrepo & Hpath).
      rewrite (validateEnv_production penv Hmode). cbn zeta.
      rewrite production_issues.
      destruct (truthy (penv !! "GITHUB_OWNER")) eqn:Ho;
        [destruct (truthy (penv !! "GITHUB_REPO")) eqn:Hr;
           [destruct (truthy (Some _)) eqn:Hp|]|];
        cbn [app outcome snd].
      * split.
        -- intros _. by exists production.
        -- intros _ (c & Hc). destruct c; [done|..].
           ++ apply Howner in Hc. congruence.
           ++ apply Hrepo in Hc. congruence.
           ++ apply Hpath in Hc. congruence.
      * split.
        -- intros Hnone. destruct Hnone. exists ContentPathRequired.
           by apply Hpath.
        -- intros (mode' & _ & Hrun). done.
      * split.
        -- intros Hnone. destruct Hnone. exists RepositoryRequired.
           by apply Hrepo.
        -- intros (mode' & _ & Hrun). done.
      * split.
        -- intros Hnone. destruct Hnone. exists OwnerRequired.
           by apply Howner.
        -- intros (mode' & _ & Hrun). done.
Qed.

(** X15. The warning about the missing token is written exactly when the
    mode is production and the token is absent or empty, and it is then
    the first line written, whether the environment is accepted or
    not. *)
Theorem token_warning_iff_production_without_token
    (penv : gmap string string) :
  (tokenWarning ∈ trace (validateEnv penv) ↔
   inProduction penv ∧ missing (penv !! "GITHUB_TOKEN"))
  ∧ (inProduction penv → missing (penv !! "GITHUB_TOKEN") →
     head (trace (validateEnv penv)) = Some tokenWarning).
Proof.
  unfold inProduction.
  destruct (mode_cases penv) as [(issue & Hmode & _ & [_ Hnot])
                                |(mode & Hmode & Henv)].
  - rewrite (validateEnv_mode_rejected penv issue Hmode). cbn [trace fst].
    split; [|done]. rewrite list_elem_of_singleton. split; [done|].
    by intros [? _].
  - destruct mode; cbn in Henv.
    + rewrite (validateEnv_development penv Hmode). cbn [trace fst].
      split; [|congruence]. rewrite elem_of_nil. split; [done|].
      intros [? _]. congruence.
    + rewrite (validateEnv_production penv Hmode). cbn zeta.
      rewrite missing_falsy.
      destruct (truthy (penv !! "GITHUB_TOKEN"));
        destruct (superRefine _).2 as [|issue issues];
        cbn [trace fst app head].
      * split; [|done]. split; [|by intros [_ ?]].
        intros Hin. by apply elem_of_nil in Hin.
      * split; [|done]. split; [|by intros [_ ?]].
        intros Hin. by apply list_elem_of_singleton in Hin.
      * split; [|done]. split; [done|].
        intros _. by apply list_elem_of_singleton.
      * split; [|done]. split; [done|].
        intros _. apply elem_of_cons. by left.
Qed.

Lemma token_warning_iff_production_without_token_witness :
  head (trace (validateEnv {[ "NODE_ENV" := "production" ]}))
  = Some tokenWarning.
Proof.
  apply (proj2 (token_warning_iff_production_without_token
                  {[ "NODE_ENV" := "production" ]})).
  - reflexivity.
  - left. reflexivity.
Defined.

(** X16. An accepted production environment always gets past the
    configuration guard of remote acquisition: its owner, repository and
    content path are non-empty, and on any host the run starts with the
    tree-listing request. *)
Theorem accepted_production_environment_passes_the_guard
    (penv : gmap string string) (env : Env) :
  outcome (validateEnv penv) = Ok env →
  env.(NODE_ENV) = production →
  truthy env.(GITHUB_OWNER) = true
  ∧ truthy env.(GITHUB_REPO) = true
  ∧ env.(GITHUB_CONTENT_PATH) ≠ ""
  ∧ ∀ RT : Runtime,
      ∃ rest,
        trace (getGitHubFiles (RT := RT) env)
        = Fetch (apiUrl env) (getGitHubHeaders env) :: rest.
Proof.
  intros Hrun Hprod.
  destruct (mode_cases penv) as [(issue & Hmode & _)|(mode & Hmode & Henv)].
  { by rewrite (validateEnv_mode_rejected penv issue Hmode) in Hrun. }
  destruct mode.
  { rewrite (validateEnv_development penv Hmode) in Hrun.
    injection Hrun as <-. done. }
  rewrite (validateEnv_production penv Hmode) in Hrun. cbn zeta in Hrun.
  rewrite production_issues in Hrun.
  destruct (truthy (penv !! "GITHUB_OWNER")) eqn:Ho;
    [destruct (truthy (penv !! "GITHUB_REPO")) eqn:Hr;
       [destruct (truthy (Some _)) eqn:Hp|]|];
    cbn [app outcome snd] in Hrun; try done.
  injection Hrun as <-. cbn [resolved GITHUB_OWNER GITHUB_REPO
    GITHUB_CONTENT_PATH].
  split; [done|]. split; [done|]. split.
  - intros Hempty. apply path_falsy in Hempty. congruence.
  - intros RT.
    rewrite (run_by_kind (resolved penv production) Ho Hr).
    destruct (runKind _); cbn [trace fst]; by eexists.
Qed.

Lemma accepted_production_environment_passes_the_guard_witness :
  ∃ rest,
    trace (getGitHubFiles (RT := Sample.runtime Scenario.offline)
             Sample.prodEnv)
    = Fetch (apiUrl Sample.prodEnv) (getGitHubHeaders Sample.prodEnv) :: rest.
Proof.
  exact (proj2 (proj2 (proj2
           (accepted_production_environment_passes_the_guard
              {[ "NODE_ENV" := "production"; "GITHUB_OWNER" := "acme";
                 "GITHUB_REPO" := "handbook" ]}
              Sample.prodEnv eq_refl eq_refl)))
           (Sample.runtime Scenario.offline)).
Defined.

Ltac filter_constraints :=
  unfold allConstraints;
  repeat first
    [ rewrite filter_cons_True by assumption
    | rewrite filter_cons_False by assumption ];
  rewrite filter_nil.

Lemma rejected_mode_line (v : option string) issue :
  parseNodeEnv v = inl issue →
  issueLine issue
  = "NODE_ENV: " +:+
    match v with
    | None => "Required"
    | Some received =>
        "Invalid enum value. Expected 'development' | 'production', received '"
        +:+ received +:+ "'"
    end.
Proof.
  unfold parseNodeEnv. destruct v as [s|]; [|by intros [= <-]].
  destruct (String.eqb s "development"); [done|].
  destruct (String.eqb s "production"); [done|].
  by intros [= <-].
Qed.

(** X17. The message of a rejected environment is made of the entries of
    the violated constraints and of nothing else: it is, joined by line
    breaks and in the order mode, owner, repository, content path, the
    entry of each violated constraint, and this very text is what is
    written last to the error console and what the thrown error holds. *)
Theorem error_message_is_the_entries_of_the_violations
    (penv : gmap string string) :
  (∃ c, violates penv c) →
  let message :=
    String.concat nl
      (map (entryOf penv) (filter (violates penv) allConstraints)) in
  outcome (validateEnv penv) = Throw (Error message)
  ∧ last (trace (validateEnv penv)) = Some (ConsoleError message).
Proof.
  intros (c0 & Hc0).
  destruct (mode_cases penv) as [(issue & Hmode & Hpath & Hviol)
                                |(mode & Hmode & Henv)].
  - assert (¬ violates penv OwnerRequired) by (intros [? _]; by destruct Hviol).
    assert (¬ violates penv RepositoryRequired)
      by (intros [? _]; by destruct Hviol).
    assert (¬ violates penv ContentPathRequired)
      by (intros [? _]; by destruct Hviol).
    filter_constraints.
    rewrite (validateEnv_mode_rejected penv issue Hmode).
    rewrite (rejected_mode_line _ issue Hmode). by split.
  - destruct mode; cbn in Henv.
    { by destruct (no_violation_in_development penv c0 Henv). }
    pose proof (violation_in_production penv Henv)
      as (Hm & Howner & Hrepo & Hpath).
    rewrite (validateEnv_production penv Hmode). cbn zeta.
    rewrite production_issues.
    assert (∀ c (b : bool), (violates penv c ↔ b = false) →
              if b then ¬ violates penv c else violates penv c) as Hcase.
    { intros c [] Hiff; [|by apply Hiff]. intros Hc. by apply Hiff in Hc. }
    pose proof (Hcase _ _ Howner) as Ho.
    pose proof (Hcase _ _ Hrepo) as Hr.
    pose proof (Hcase _ _ Hpath) as Hp.
    destruct (truthy (penv !! "GITHUB_OWNER"));
      destruct (truthy (penv !! "GITHUB_REPO"));
      destruct (truthy (Some _));
      cbn [app outcome trace fst snd].
    1: { destruct c0; done. }
    all: filter_constraints; split; [reflexivity | apply last_snoc].
Qed.

Lemma error_message_is_the_entries_of_the_violations_witness :
  outcome (validateEnv {[ "NODE_ENV" := "production";
                          "GITHUB_REPO" := "handbook";
                          "GITHUB_CONTENT_PATH" := "" ]})
  = Throw (Error
      ("GITHUB_OWNER: GITHUB_OWNER is required in production mode." +:+ nl +:+
       "GITHUB_CONTENT_PATH: GITHUB_CONTENT_PATH is required in production mode.")).
Proof.
  refine (proj1 (error_message_is_the_entries_of_the_violations
                   {[ "NODE_ENV" := "production"; "GITHUB_REPO" := "handbook";
                      "GITHUB_CONTENT_PATH" := "" ]} _)).
  exists OwnerRequired. split; [reflexivity | left; reflexivity].
Defined.

(** X18. The mode-only resolver accepts an environment exactly when
    [NODE_ENV] is one of the two modes, whatever the other variables are;
    it accepts, with the same mode and in silence, every environment that
    the full resolver accepts; and when the mode is invalid the two
    resolvers write the same line and throw the same error. *)
Theorem mode_only_resolver_agrees (penv : gmap string string) :
  (∀ mode,
     outcome (ModeOnly.validateEnv penv)
     = Ok {| ModeOnly.data_NODE_ENV := mode |}
     ↔ penv !! "NODE_ENV" = Some (Mode_to_string mode))
  ∧ (∀ env,
       outcome (validateEnv penv) = Ok env →
       ModeOnly.validateEnv penv
       = ([], Ok {| ModeOnly.data_NODE_ENV := env.(NODE_ENV) |}))
  ∧ (violates penv ModeIsValid →
     trace (ModeOnly.validateEnv penv) = trace (validateEnv penv)
     ∧ ∃ e, outcome (ModeOnly.validateEnv penv) = Throw e
            ∧ outcome (validateEnv penv) = Throw e).
Proof.
  unfold ModeOnly.validateEnv, ModeOnly.envSchema_safeParse.
  destruct (mode_cases penv) as [(issue & Hmode & _ & Hviol)
                                |(mode & Hmode & Henv)].
  - rewrite Hmode, (validateEnv_mode_rejected penv issue Hmode).
    split; [|split].
    + intros mode. split; [done|]. intros Henv.
      apply parseNodeEnv_mode in Henv. congruence.
    + by intros env.
    + intros _. split; [done|]. by eexists.
  - rewrite Hmode. split; [|split].
    + intros mode'. cbn [outcome snd ret]. split.
      * by intros [= <-].
      * intros Henv'. rewrite Henv in Henv'. by destruct mode, mode'.
    + intros env Hrun. destruct mode.
      * rewrite (validateEnv_development penv Hmode) in Hrun.
        by injection Hrun as <-.
      * rewrite (validateEnv_production penv Hmode) in Hrun.
        cbn zeta in Hrun.
        destruct (superRefine _).2; [|done]. by injection Hrun as <-.
    + intros [Hdev Hprod]. destruct mode; cbn in Henv; congruence.
Qed.

(** ** Reading the quota headers *)

(** X19. Header parsing yields no snapshot exactly when one of the four
    fields is absent or empty; otherwise it yields a snapshot whatever the
    fields hold, each number being what [parseInt] reads (possibly [NaN])
    and the reset time the date of a thousand times the reset field. *)
Theorem no_snapshot_iff_a_field_is_missing (hdrs : gmap string string) :
  (parseRateLimitHeaders hdrs = None ↔
   ∃ name, name ∈ rateLimitHeaderNames ∧ missing (hdrs !! name))
  ∧ (∀ info,
       parseRateLimitHeaders hdrs = Some info →
       info.(limit) = parseInt (default "" (hdrs !! "x-ratelimit-limit"))
       ∧ info.(remaining)
         = parseInt (default "" (hdrs !! "x-ratelimit-remaining"))
       ∧ info.(reset)
         = newDate (times (parseInt
                             (default "" (hdrs !! "x-ratelimit-reset"))) 1000)
       ∧ info.(used) = parseInt (default "" (hdrs !! "x-ratelimit-used"))).
Proof.
  split.
  - unfold parseRateLimitHeaders, headers_get, rateLimitHeaderNames.
    setoid_rewrite missing_falsy.
    destruct (truthy (hdrs !! "x-ratelimit-limit")) eqn:Hl;
      [|split; [intros _; eexists; split; [|exact Hl]; set_solver | done]].
    destruct (truthy (hdrs !! "x-ratelimit-remaining")) eqn:Hr;
      [|split; [intros _; eexists; split; [|exact Hr]; set_solver | done]].
    destruct (truthy (hdrs !! "x-ratelimit-reset")) eqn:Hs;
      [|split; [intros _; eexists; split; [|exact Hs]; set_solver | done]].
    destruct (truthy (hdrs !! "x-ratelimit-used")) eqn:Hu;
      [|split; [intros _; eexists; split; [|exact Hu]; set_solver | done]].
    cbn [negb orb]. split; [done|].
    intros (name & Hin & Hname).
    rewrite !elem_of_cons, elem_of_nil in Hin.
    destruct Hin as [->|[->|[->|[->|[]]]]]; congruence.
  - intros info Hparse. unfold parseRateLimitHeaders, headers_get in Hparse.
    destruct (_ || _); [done|]. by injection Hparse as <-.
Qed.

Section Decimal.

Local Open Scope N_scope.

Lemma digit_char_value d :
  d < 10 → digitValue (pretty_N_char d) = Some (Z.of_N d).
Proof.
  intros Hd.
  assert (d = 0 ∨ d = 1 ∨ d = 2 ∨ d = 3 ∨ d = 4 ∨ d = 5 ∨ d = 6 ∨ d = 7
          ∨ d = 8 ∨ d = 9) as Hcases by lia.
  repeat destruct Hcases as [->|Hcases]; try reflexivity.
  by subst.
Qed.

Lemma parseDigits_pretty x s :
  0 < x →
  parseDigits 10 (pretty_N_go x s) None = parseDigits 10 s (Some (Z.of_N x)).
Proof.
  revert s. induction (N.lt_wf_0 x) as [x _ IH]. intros s Hx.
  rewrite pretty_N_go_step by done.
  assert (x `mod` 10 < 10) as Hd by (apply N.mod_lt; lia).
  destruct (decide (x `div` 10 = 0)) as [Hzero|Hpos].
  - rewrite Hzero, pretty_N_go_0. cbn [parseDigits].
    rewrite (digit_char_value _ Hd). cbn [default].
    replace (Z.of_N (x `mod` 10) <? 10)%Z with true
      by (symmetry; apply Z.ltb_lt; lia).
    do 2 f_equal. pose proof (N.div_mod x 10 ltac:(done)) as Hx'.
    rewrite Hzero in Hx'. lia.
  - rewrite IH; [|apply N.div_lt; lia|by apply N.neq_0_lt_0].
    cbn [parseDigits]. rewrite (digit_char_value _ Hd). cbn [default].
    replace (Z.of_N (x `mod` 10) <? 10)%Z with true
      by (symmetry; apply Z.ltb_lt; lia).
    do 2 f_equal. pose proof (N.div_mod x 10 ltac:(done)) as Hx'.
    unfold id. lia.
Qed.

Lemma pretty_leading_digit x s :
  0 < x →
  ∃ c rest,
    pretty_N_go x s = String c rest
    ∧ In c ["1"; "2"; "3"; "4"; "5"; "6"; "7"; "8"; "9"]%char.
Proof.
  revert s. induction (N.lt_wf_0 x) as [x _ IH]. intros s Hx.
  rewrite pretty_N_go_step by done.
  destruct (decide (x `div` 10 = 0)) as [Hzero|Hpos].
  - rewrite Hzero, pretty_N_go_0. eexists _, _. split; [done|].
    assert (x < 10) by (by apply (N.div_small_iff x 10)).
    rewrite N.mod_small by done.
    assert (x = 1 ∨ x = 2 ∨ x = 3 ∨ x = 4 ∨ x = 5 ∨ x = 6 ∨ x = 7
            ∨ x = 8 ∨ x = 9) as Hcases by lia.
    repeat destruct Hcases as [->|Hcases]; subst; cbn; tauto.
  - apply IH; [apply N.div_lt; lia | by apply N.neq_0_lt_0].
Qed.

Lemma parseInt_leading_digit c rest :
  In c ["1"; "2"; "3"; "4"; "5"; "6"; "7"; "8"; "9"]%char →
  parseInt (String c rest)
  = match parseDigits 10 (String c rest) None with
    | Some m => Num m
    | None => NaN
    end.
Proof.
  intros Hc. cbn [In] in Hc.
  repeat destruct Hc as [<-|Hc]; try reflexivity. done.
Qed.

Lemma parseInt_pretty (n : N) :
  parseInt (pretty n) = Num (Z.of_N n) ∧ truthy (Some (pretty n)) = true.
Proof.
  unfold pretty, pretty_N. destruct (decide (n = 0)) as [->|Hn]; [done|].
  assert (0 < n) as Hpos by lia.
  destruct (pretty_leading_digit n "" Hpos) as (c & rest & Heq & Hc).
  split.
  - rewrite Heq, (parseInt_leading_digit c rest Hc), <- Heq.
    by rewrite (parseDigits_pretty n "" Hpos).
  - by rewrite Heq.
Qed.

End Decimal.

(** X20. Quota headers that hold natural numbers written in decimal,
    each at most 2^53 (the range in which every integer is a JavaScript
    number), are read back exactly: the snapshot has those numbers, its
    reset time is a thousand times the reset field when that is a
    representable date, and it shows no remaining quota exactly when the
    remaining field is the number zero. *)
Theorem decimal_quota_headers_are_read_exactly
    (hdrs : gmap string string) (l r s u : N) :
  (l ≤ 2 ^ 53)%N → (r ≤ 2 ^ 53)%N → (s ≤ 2 ^ 53)%N → (u ≤ 2 ^ 53)%N →
  hdrs !! "x-ratelimit-limit" = Some (pretty l) →
  hdrs !! "x-ratelimit-remaining" = Some (pretty r) →
  hdrs !! "x-ratelimit-reset" = Some (pretty s) →
  hdrs !! "x-ratelimit-used" = Some (pretty u) →
  ∃ info,
    parseRateLimitHeaders hdrs = Some info
    ∧ info.(limit) = Num (Z.of_N l)
    ∧ info.(remaining) = Num (Z.of_N r)
    ∧ info.(used) = Num (Z.of_N u)
    ∧ (Z.of_N s * 1000 ≤ 8640000000000000 →
       info.(reset) = {| getTime := Num (Z.of_N s * 1000) |})
    ∧ (strict_eq info.(remaining) (Num 0) = true ↔ r = 0%N).
Proof.
  intros _ _ _ _ Hl Hr Hs Hu.
  destruct (parseInt_pretty l) as [Pl Tl], (parseInt_pretty r) as [Pr Tr],
    (parseInt_pretty s) as [Ps Ts], (parseInt_pretty u) as [Pu Tu].
  unfold parseRateLimitHeaders, headers_get.
  rewrite Hl, Hr, Hs, Hu, Tl, Tr, Ts, Tu. cbn [negb orb from_option id].
  rewrite Pl, Pr, Ps, Pu. eexists. split; [reflexivity|].
  cbn [limit remaining reset used times newDate].
  split; [done|]. split; [done|]. split; [done|]. split.
  - intros Hrange.
    replace (Z.abs (Z.of_N s * 1000) <=? 8640000000000000) with true; [done|].
    symmetry. apply Z.leb_le. lia.
  - rewrite strict_eq_zero. split; [intros [= ?]; lia | by intros ->].
Qed.

Lemma decimal_quota_headers_are_read_exactly_witness :
  ∃ info,
    parseRateLimitHeaders (Sample.quota "0" "60") = Some info
    ∧ info.(remaining) = Num 0
    ∧ info.(reset) = {| getTime := Num 1893456000000 |}.
Proof.
  destruct (decimal_quota_headers_are_read_exactly
              (Sample.quota "0" "60") 60 0 1893456000 60)
    as (info & Hparse & _ & Hrem & _ & Hreset & _);
    [vm_compute; discriminate .. | reflexivity | reflexivity | reflexivity
    | reflexivity | ].
  exists info. split; [exact Hparse|]. split; [exact Hrem|].
  apply Hreset. vm_compute. discriminate.
Defined.
